(** * Plant-disease-detection backend: storage, AI wrapper and routes

    A shallow embedding of [server/storage.ts], [server/openai-service.ts]
    and [server/routes.ts].

    - Values that TypeScript types as [any] (the object returned by
      [JSON.parse]) are modelled by the untyped [jsval]; values that went
      through a zod schema keep their declared types.
    - A JavaScript [Map] is an association list in insertion order, since
      [Array.from(map.values())] enumerates in that order.
    - [new Date()] reads the clock: every [create*] operation receives the
      current time in milliseconds as an argument.
    - Each route handler is a state-passing function over the storage, the
      session of the request and the log of storage calls made so far.
      A handler runs to completion before the next request is looked at;
      on [MemStorage] every [await] is on a settled promise, so this is how
      the event loop schedules it.
    - Row ids and timestamps are integers; the counters stay exact far
      beyond any number of rows a process can create. *)

From Stdlib Require Import ZArith QArith List String Ascii Bool Lia.
From Stdlib Require Import Sorting.Sorted Sorting.Permutation FinFun.
Import ListNotations.
Local Open Scope string_scope.
Local Open Scope list_scope.
Local Open Scope Z_scope.

(* ================================================================= *)
(** ** JavaScript values and built-ins *)

Module JS.

(** A JavaScript number.  [Math.min], [Math.max], comparisons and the
    truthiness test never round, so a finite double is represented by its
    exact value. *)
Inductive number : Type :=
| NaN
| NegInfinity
| Finite (q : Q)
| PosInfinity.

(** The values [JSON.parse] can return, plus [undefined] for a property
    that is absent. *)
#[local] Unset Elimination Schemes.
Inductive jsval : Type :=
| JUndefined
| JNull
| JBool (b : bool)
| JNum (n : number)
| JStr (s : string)
| JArr (elems : list jsval)
| JObj (fields : list (string * jsval)).
#[local] Set Elimination Schemes.

(** Fields of the three-state optional properties of a zod-inferred insert
    type: [field?: T | null]. *)
Inductive optional (A : Type) : Type :=
| undefined
| null
| value (a : A).
Arguments undefined {A}.
Arguments null {A}.
Arguments value {A} a.

(** [x ?? null] on a typed optional property; the stored column is
    [T | null], i.e. [option T]. *)
Definition nullish_to_null {A} (x : optional A) : option A :=
  match x with
  | value a => Some a
  | undefined | null => None
  end.

(** [x ?? d] on an untyped value. *)
Definition nullish_coalesce (x d : jsval) : jsval :=
  match x with
  | JUndefined | JNull => d
  | _ => x
  end.

Definition number_truthy (n : number) : bool :=
  match n with
  | NaN => false
  | Finite q => negb (Qeq_bool q 0%Q)
  | NegInfinity | PosInfinity => true
  end.

(** ToBoolean. *)
Definition truthy (v : jsval) : bool :=
  match v with
  | JUndefined | JNull => false
  | JBool b => b
  | JNum n => number_truthy n
  | JStr s => negb (String.eqb s "")
  | JArr _ | JObj _ => true
  end.

(** [a || b]. *)
Definition or_else (a b : jsval) : jsval :=
  if truthy a then a else b.

(** Property read [o.k].  [JSON.parse] leaves one entry per key, so the
    first match is the property.  On primitives and arrays the properties
    read by this program are absent; reading a property of [null] throws a
    TypeError, which the caller handles before it gets here. *)
Fixpoint lookup_field (k : string) (fs : list (string * jsval)) : jsval :=
  match fs with
  | [] => JUndefined
  | (k', v) :: rest => if String.eqb k k' then v else lookup_field k rest
  end.

Definition get (v : jsval) (k : string) : jsval :=
  match v with
  | JObj fs => lookup_field k fs
  | _ => JUndefined
  end.

(** Strict equality with a string literal, [v === "s"]. *)
Definition strict_eq_str (v : jsval) (s : string) : bool :=
  match v with
  | JStr s' => String.eqb s' s
  | _ => false
  end.

(** [v === true]. *)
Definition strict_eq_true (v : jsval) : bool :=
  match v with
  | JBool true => true
  | _ => false
  end.

(** [Math.min(a, b)] and [Math.max(a, b)] on numbers. *)
Definition number_min (a b : number) : number :=
  match a, b with
  | NaN, _ | _, NaN => NaN
  | NegInfinity, _ | _, NegInfinity => NegInfinity
  | PosInfinity, x | x, PosInfinity => x
  | Finite p, Finite q => if Qle_bool p q then a else b
  end.

Definition number_max (a b : number) : number :=
  match a, b with
  | NaN, _ | _, NaN => NaN
  | PosInfinity, _ | _, PosInfinity => PosInfinity
  | NegInfinity, x | x, NegInfinity => x
  | Finite p, Finite q => if Qle_bool q p then a else b
  end.

Section ToNumber.
(** The numeric value of a string (StringToNumber) and the string form
    of an array ([Array.prototype.join]) are built-ins left abstract. *)
Variable StringToNumber : string -> number.
Variable ArrayToString : list jsval -> string.

Definition ToNumber (v : jsval) : number :=
  match v with
  | JUndefined => NaN
  | JNull => Finite 0%Q
  | JBool b => if b then Finite 1%Q else Finite 0%Q
  | JNum n => n
  | JStr s => StringToNumber s
  | JArr l => StringToNumber (ArrayToString l)
  | JObj _ => NaN          (* "[object Object]" is not a numeric literal *)
  end.

Definition Math_min (a b : jsval) : number :=
  number_min (ToNumber a) (ToNumber b).

Definition Math_max (a b : jsval) : number :=
  number_max (ToNumber a) (ToNumber b).
End ToNumber.

(** *** [Array.prototype.sort] *)

Section Sort.
Context {A : Type}.
(** The comparator: a positive result asks for [a] after [b]. *)
Variable compareFn : A -> A -> Z.

Fixpoint sort_insert (x : A) (l : list A) : list A :=
  match l with
  | [] => [x]
  | y :: l' =>
      if 0 <? compareFn x y then y :: sort_insert x l' else x :: y :: l'
  end.

(** The sort is stable (ECMAScript 2019); for a consistent comparator
    every stable sort returns the same list, here computed by stable
    insertion from the right. *)
Definition Array_sort (l : list A) : list A :=
  fold_right sort_insert [] l.
End Sort.

(** *** [Map<number, V>], in insertion order *)

Section Map.
Context {V : Type}.

Definition Map := list (Z * V).

Definition Map_new : Map := [].

Fixpoint Map_get (k : Z) (m : Map) : option V :=
  match m with
  | [] => None
  | (k', v) :: m' => if k =? k' then Some v else Map_get k m'
  end.

(** [set] overwrites in place when the key is present and appends
    otherwise. *)
Fixpoint Map_set (k : Z) (v : V) (m : Map) : Map :=
  match m with
  | [] => [(k, v)]
  | (k', v') :: m' =>
      if k =? k' then (k, v) :: m' else (k', v') :: Map_set k v m'
  end.

Definition Map_values (m : Map) : list V := map snd m.
Definition Map_keys (m : Map) : list Z := map fst m.
End Map.
Arguments Map V : clear implicits.

(** *** Strings *)

Definition ascii_toLowerCase (c : ascii) : ascii :=
  let n := nat_of_ascii c in
  if ((65 <=? n) && (n <=? 90))%nat then ascii_of_nat (n + 32) else c.

(** [toLowerCase] on the ASCII range. *)
Fixpoint toLowerCase (s : string) : string :=
  match s with
  | EmptyString => EmptyString
  | String c s' => String (ascii_toLowerCase c) (toLowerCase s')
  end.

(** [s.includes(sub)]. *)
Fixpoint includes (s sub : string) : bool :=
  if String.prefix sub s then true
  else match s with
       | EmptyString => false
       | String _ s' => includes s' sub
       end.

End JS.

(* ================================================================= *)
(** ** Entities ([@shared/schema]) *)

(** A [Date] is its [getTime()] value, in milliseconds. *)
Definition Date := Z.

Module InsertUser.
(** Modelled from the spec: the fields of [InsertUser] ([@shared/schema] is
    not part of the sources): username, password, optional email and
    name. *)
Record t : Type := mk {
  username : string;
  password : string;
  email : JS.optional string;
  firstName : JS.optional string;
  lastName : JS.optional string
}.
End InsertUser.

Module User.
(** Modelled from the spec: the fields of [User]; the optional columns are
    [string | null]. *)
Record t : Type := mk {
  id : Z;
  username : string;
  password : string;
  email : option string;
  firstName : option string;
  lastName : option string;
  createdAt : option Date
}.
End User.

Module InsertPlantAnalysis.
(** Modelled from the spec: the fields of [InsertPlantAnalysis], which are
    also the ones the upload route passes.  The values that come from the
    AI wrapper are whatever [JSON.parse] produced. *)
Record t : Type := mk {
  userId : Z;
  imagePath : string;
  diagnosis : JS.jsval;
  confidence : JS.number;
  severity : JS.jsval;
  isHealthy : JS.jsval;
  description : JS.jsval;
  treatment : JS.jsval
}.
End InsertPlantAnalysis.

Module PlantAnalysis.
(** Modelled from the spec: the fields of [PlantAnalysis]. *)
Record t : Type := mk {
  id : Z;
  userId : Z;
  imagePath : string;
  diagnosis : JS.jsval;
  confidence : JS.number;
  severity : JS.jsval;
  isHealthy : JS.jsval;
  description : JS.jsval;
  treatment : JS.jsval;
  createdAt : option Date
}.
End PlantAnalysis.

Module InsertDiseaseReport.
(** Modelled from the spec: the fields of [InsertDiseaseReport]: location,
    optional description and coordinates. *)
Record t : Type := mk {
  location : string;
  description : JS.optional string;
  latitude : JS.optional Q;
  longitude : JS.optional Q
}.
End InsertDiseaseReport.

Module DiseaseReport.
(** Modelled from the spec: the fields of [DiseaseReport]. *)
Record t : Type := mk {
  id : Z;
  location : string;
  description : option string;
  latitude : option Q;
  longitude : option Q;
  createdAt : option Date
}.
End DiseaseReport.

Module InsertUserFeedback.
(** Modelled from the spec: the fields of [InsertUserFeedback]: the analysis
    it refers to and an optional comment. *)
Record t : Type := mk {
  analysisId : Z;
  comment : JS.optional string
}.
End InsertUserFeedback.

Module UserFeedback.
(** Modelled from the spec: the fields of [UserFeedback]. *)
Record t : Type := mk {
  id : Z;
  analysisId : Z;
  comment : option string;
  createdAt : option Date
}.
End UserFeedback.

(* ================================================================= *)
(** ** [server/storage.ts] *)

(** An id argument computed by [parseInt]: an integer, or [None] for NaN. *)
Definition IntOrNaN := option Z.

(** [interface IStorage].  A storage is a state [S]; queries read it and
    [create*] operations return the new row and the next state.  The first
    argument of a [create*] operation is the clock reading. *)
Class IStorage (S : Type) : Type := {
  getUser : Z -> S -> option User.t;
  getUserByUsername : string -> S -> option User.t;
  createUser : Date -> InsertUser.t -> S -> User.t * S;
  createPlantAnalysis :
    Date -> InsertPlantAnalysis.t -> S -> PlantAnalysis.t * S;
  getPlantAnalysesByUser : Z -> S -> list PlantAnalysis.t;
  getPlantAnalysisById : IntOrNaN -> S -> option PlantAnalysis.t;
  createDiseaseReport :
    Date -> InsertDiseaseReport.t -> S -> DiseaseReport.t * S;
  getDiseaseReports : S -> list DiseaseReport.t;
  getDiseaseReportsByLocation : string -> S -> list DiseaseReport.t;
  createUserFeedback :
    Date -> InsertUserFeedback.t -> S -> UserFeedback.t * S;
  getFeedbackByAnalysis : Z -> S -> list UserFeedback.t
}.

(** [createdAt?.getTime() || 0] *)
Definition getTime_or_0 (createdAt : option Date) : Z :=
  match createdAt with
  | Some t => if t =? 0 then 0 else t
  | None => 0
  end.

Module MemStorage.

Record t : Type := mk {
  users : JS.Map User.t;
  plantAnalyses : JS.Map PlantAnalysis.t;
  diseaseReports : JS.Map DiseaseReport.t;
  userFeedback : JS.Map UserFeedback.t;
  currentUserId : Z;
  currentAnalysisId : Z;
  currentReportId : Z;
  currentFeedbackId : Z
}.

Definition constructor : t :=
  {| users := JS.Map_new;
     plantAnalyses := JS.Map_new;
     diseaseReports := JS.Map_new;
     userFeedback := JS.Map_new;
     currentUserId := 1;
     currentAnalysisId := 1;
     currentReportId := 1;
     currentFeedbackId := 1 |}.

Definition getUser (id : Z) (this : t) : option User.t :=
  JS.Map_get id (users this).

Definition getUserByUsername (username : string) (this : t)
  : option User.t :=
  find (fun user => String.eqb (User.username user) username)
       (JS.Map_values (users this)).

Definition createUser (now : Date) (insertUser : InsertUser.t) (this : t)
  : User.t * t :=
  let id := currentUserId this in
  let user :=
    {| User.id := id;
       User.username := InsertUser.username insertUser;
       User.password := InsertUser.password insertUser;
       User.createdAt := Some now;
       User.email := JS.nullish_to_null (InsertUser.email insertUser);
       User.firstName := JS.nullish_to_null (InsertUser.firstName insertUser);
       User.lastName := JS.nullish_to_null (InsertUser.lastName insertUser)
    |} in
  (user,
   {| users := JS.Map_set id user (users this);
      plantAnalyses := plantAnalyses this;
      diseaseReports := diseaseReports this;
      userFeedback := userFeedback this;
      currentUserId := id + 1;
      currentAnalysisId := currentAnalysisId this;
      currentReportId := currentReportId this;
      currentFeedbackId := currentFeedbackId this |}).

Definition createPlantAnalysis (now : Date)
    (insertAnalysis : InsertPlantAnalysis.t) (this : t)
  : PlantAnalysis.t * t :=
  let id := currentAnalysisId this in
  let analysis :=
    {| PlantAnalysis.id := id;
       PlantAnalysis.userId := InsertPlantAnalysis.userId insertAnalysis;
       PlantAnalysis.imagePath := InsertPlantAnalysis.imagePath insertAnalysis;
       PlantAnalysis.diagnosis := InsertPlantAnalysis.diagnosis insertAnalysis;
       PlantAnalysis.confidence :=
         InsertPlantAnalysis.confidence insertAnalysis;
       PlantAnalysis.createdAt := Some now;
       PlantAnalysis.description :=
         JS.nullish_coalesce
           (InsertPlantAnalysis.description insertAnalysis) JS.JNull;
       PlantAnalysis.severity :=
         JS.nullish_coalesce
           (InsertPlantAnalysis.severity insertAnalysis) JS.JNull;
       PlantAnalysis.treatment :=
         JS.nullish_coalesce
           (InsertPlantAnalysis.treatment insertAnalysis) JS.JNull;
       PlantAnalysis.isHealthy :=
         JS.nullish_coalesce
           (InsertPlantAnalysis.isHealthy insertAnalysis) (JS.JBool false)
    |} in
  (analysis,
   {| users := users this;
      plantAnalyses := JS.Map_set id analysis (plantAnalyses this);
      diseaseReports := diseaseReports this;
      userFeedback := userFeedback this;
      currentUserId := currentUserId this;
      currentAnalysisId := id + 1;
      currentReportId := currentReportId this;
      currentFeedbackId := currentFeedbackId this |}).

(** The comparator of the three list queries:
    [(a, b) => (b.createdAt?.getTime() || 0) - (a.createdAt?.getTime() || 0)] *)
Definition newest_first (createdAt_a createdAt_b : option Date) : Z :=
  getTime_or_0 createdAt_b - getTime_or_0 createdAt_a.

Definition getPlantAnalysesByUser (userId : Z) (this : t)
  : list PlantAnalysis.t :=
  JS.Array_sort
    (fun a b => newest_first (PlantAnalysis.createdAt a)
                             (PlantAnalysis.createdAt b))
    (filter (fun analysis => PlantAnalysis.userId analysis =? userId)
            (JS.Map_values (plantAnalyses this))).

(** [Map.get(NaN)] finds nothing: every key was produced by a counter. *)
Definition getPlantAnalysisById (id : IntOrNaN) (this : t)
  : option PlantAnalysis.t :=
  match id with
  | Some id => JS.Map_get id (plantAnalyses this)
  | None => None
  end.

Definition createDiseaseReport (now : Date)
    (insertReport : InsertDiseaseReport.t) (this : t)
  : DiseaseReport.t * t :=
  let id := currentReportId this in
  let report :=
    {| DiseaseReport.id := id;
       DiseaseReport.location := InsertDiseaseReport.location insertReport;
       DiseaseReport.createdAt := Some now;
       DiseaseReport.description :=
         JS.nullish_to_null (InsertDiseaseReport.description insertReport);
       DiseaseReport.latitude :=
         JS.nullish_to_null (InsertDiseaseReport.latitude insertReport);
       DiseaseReport.longitude :=
         JS.nullish_to_null (InsertDiseaseReport.longitude insertReport)
    |} in
  (report,
   {| users := users this;
      plantAnalyses := plantAnalyses this;
      diseaseReports := JS.Map_set id report (diseaseReports this);
      userFeedback := userFeedback this;
      currentUserId := currentUserId this;
      currentAnalysisId := currentAnalysisId this;
      currentReportId := id + 1;
      currentFeedbackId := currentFeedbackId this |}).

Definition getDiseaseReports (this : t) : list DiseaseReport.t :=
  JS.Array_sort
    (fun a b => newest_first (DiseaseReport.createdAt a)
                             (DiseaseReport.createdAt b))
    (JS.Map_values (diseaseReports this)).

Definition getDiseaseReportsByLocation (location : string) (this : t)
  : list DiseaseReport.t :=
  JS.Array_sort
    (fun a b => newest_first (DiseaseReport.createdAt a)
                             (DiseaseReport.createdAt b))
    (filter (fun report =>
               JS.includes (JS.toLowerCase (DiseaseReport.location report))
                           (JS.toLowerCase location))
            (JS.Map_values (diseaseReports this))).

Definition createUserFeedback (now : Date)
    (insertFeedback : InsertUserFeedback.t) (this : t)
  : UserFeedback.t * t :=
  let id := currentFeedbackId this in
  let feedback :=
    {| UserFeedback.id := id;
       UserFeedback.analysisId := InsertUserFeedback.analysisId insertFeedback;
       UserFeedback.createdAt := Some now;
       UserFeedback.comment :=
         JS.nullish_to_null (InsertUserFeedback.comment insertFeedback) |} in
  (feedback,
   {| users := users this;
      plantAnalyses := plantAnalyses this;
      diseaseReports := diseaseReports this;
      userFeedback := JS.Map_set id feedback (userFeedback this);
      currentUserId := currentUserId this;
      currentAnalysisId := currentAnalysisId this;
      currentReportId := currentReportId this;
      currentFeedbackId := id + 1 |}).

Definition getFeedbackByAnalysis (analysisId : Z) (this : t)
  : list UserFeedback.t :=
  filter (fun feedback => UserFeedback.analysisId feedback =? analysisId)
         (JS.Map_values (userFeedback this)).

End MemStorage.

(** [class MemStorage implements IStorage] *)
#[export] Instance MemStorage_IStorage : IStorage MemStorage.t := {
  getUser := MemStorage.getUser;
  getUserByUsername := MemStorage.getUserByUsername;
  createUser := MemStorage.createUser;
  createPlantAnalysis := MemStorage.createPlantAnalysis;
  getPlantAnalysesByUser := MemStorage.getPlantAnalysesByUser;
  getPlantAnalysisById := MemStorage.getPlantAnalysisById;
  createDiseaseReport := MemStorage.createDiseaseReport;
  getDiseaseReports := MemStorage.getDiseaseReports;
  getDiseaseReportsByLocation := MemStorage.getDiseaseReportsByLocation;
  createUserFeedback := MemStorage.createUserFeedback;
  getFeedbackByAnalysis := MemStorage.getFeedbackByAnalysis
}.

(* ================================================================= *)
(** ** [server/openai-service.ts] *)

Module OpenAI.
Import JS.

(** [interface DiseaseDetectionResult].  The declared field types are not
    checked at run time: [disease], [severity], [description] and
    [treatment] hold whatever the parsed response held. *)
Record DiseaseDetectionResult : Type := mkResult {
  disease : jsval;
  confidence : number;
  severity : jsval;
  isHealthy : bool;
  description : jsval;
  treatment : jsval
}.

(** What [openai.chat.completions.create] produced: a rejection (or a
    response without a first choice, which makes the property read throw),
    or the [content] of the first choice ([None] for [null]). *)
Inductive completion : Type :=
| Rejected
| Content (content : option string).

(** The outcome of the [async] function: the value of the promise, or the
    [Error("Failed to analyze plant image: ...")] it rejects with. *)
Inductive outcome (A : Type) : Type :=
| Returns (a : A)
| Throws.
Arguments Returns {A} a.
Arguments Throws {A}.

(** [content || '{}'] *)
Definition content_or_default (content : option string) : string :=
  match content with
  | Some s => if String.eqb s "" then "{}" else s
  | None => "{}"
  end.

(** A number in the closed interval from 0 to 1. *)
Definition in_unit_interval (n : number) : Prop :=
  exists q, n = Finite q /\ (0 <= q <= 1)%Q.

Section AnalyzePlantImage.
Variable StringToNumber : string -> number.
Variable ArrayToString : list jsval -> string.
(** [JSON.parse]; [None] when it throws a SyntaxError. *)
Variable JSON_parse : string -> option jsval.

(** The object literal returned from the parsed [result].  Reading
    [result.disease] throws a TypeError when [result] is [null]; the
    [catch] block turns it into the rejection. *)
Definition detection_result (result : jsval)
  : outcome DiseaseDetectionResult :=
  match result with
  | JNull | JUndefined => Throws
  | _ =>
      Returns
        {| disease := or_else (get result "disease") (JStr "Unknown");
           confidence :=
             Math_max StringToNumber ArrayToString
               (JNum (Finite 0%Q))
               (JNum (Math_min StringToNumber ArrayToString
                        (JNum (Finite 1%Q))
                        (or_else (get result "confidence")
                                 (JNum (Finite 0%Q)))));
           severity :=
             if strict_eq_str (get result "severity") "null"
             then JNull else get result "severity";
           isHealthy := strict_eq_true (get result "isHealthy");
           description :=
             or_else (get result "description")
                     (JStr "No description available");
           treatment :=
             or_else (get result "treatment")
                     (JStr "No treatment recommendations available") |}
  end.

Definition analyzePlantImage (response : completion)
  : outcome DiseaseDetectionResult :=
  match response with
  | Rejected => Throws
  | Content content =>
      match JSON_parse (content_or_default content) with
      | None => Throws
      | Some result => detection_result result
      end
  end.
End AnalyzePlantImage.

End OpenAI.

(* ================================================================= *)
(** ** [server/routes.ts] *)

Module Routes.

(** [interface SessionData { userId?: number }] *)
Record SessionData : Type := mkSession {
  userId : option Z
}.

(** The session a request without a (live) session cookie gets. *)
Definition new_session : SessionData := {| userId := None |}.

(** [req.file] as multer hands it over.  An upload that multer rejects
    (not an image, more than 5MB) never reaches the handler. *)
Record File : Type := mkFile {
  originalname : string
}.

(** The storage calls a handler can make. *)
Inductive StorageCall : Type :=
| CallGetUser (id : Z)
| CallGetUserByUsername (username : string)
| CallCreateUser (user : InsertUser.t)
| CallCreatePlantAnalysis (analysis : InsertPlantAnalysis.t)
| CallGetPlantAnalysesByUser (userId : Z)
| CallGetPlantAnalysisById (id : IntOrNaN)
| CallCreateDiseaseReport (report : InsertDiseaseReport.t)
| CallGetDiseaseReports
| CallCreateUserFeedback (feedback : InsertUserFeedback.t).

(** [{ ...user, password: undefined }] as [res.json] serialises it. *)
Record PublicUser : Type := mkPublicUser {
  pu_id : Z;
  pu_username : string;
  pu_email : option string;
  pu_firstName : option string;
  pu_lastName : option string;
  pu_createdAt : option Date
}.

Definition without_password (user : User.t) : PublicUser :=
  {| pu_id := User.id user;
     pu_username := User.username user;
     pu_email := User.email user;
     pu_firstName := User.firstName user;
     pu_lastName := User.lastName user;
     pu_createdAt := User.createdAt user |}.

(** The JSON bodies the routes send. *)
Inductive Json : Type :=
| Message (message : string)
| AnalysisFailed          (* message: "Failed to analyze image: " + ... *)
| WrappedUser (user : PublicUser)               (* { user: ... } *)
| JsonUser (user : PublicUser)
| JsonAnalysis (analysis : PlantAnalysis.t)
| JsonAnalyses (analyses : list PlantAnalysis.t)
| JsonReport (report : DiseaseReport.t)
| JsonReports (reports : list DiseaseReport.t)
| JsonFeedback (feedback : UserFeedback.t)
| JsonStats (totalAnalyzed healthyPlants diseasesDetected daysActive : Z).

Record Response : Type := mkResponse {
  status : Z;
  json : Json
}.

(** The routes registered by [registerRoutes]. *)
Inductive Request (Body : Type) : Type :=
| PostSignin (body : Body)
| PostSignup (body : Body)
| PostSignout
| GetAuthUser
| PostAnalyses (file : option File)
| GetAnalyses
| GetAnalysisById (id : string)
| PostDiseaseReports (body : Body)
| GetDiseaseReports
| PostFeedback (body : Body)
| GetStats.
Arguments PostSignin {Body} body.
Arguments PostSignup {Body} body.
Arguments PostSignout {Body}.
Arguments GetAuthUser {Body}.
Arguments PostAnalyses {Body} file.
Arguments GetAnalyses {Body}.
Arguments GetAnalysisById {Body} id.
Arguments PostDiseaseReports {Body} body.
Arguments GetDiseaseReports {Body}.
Arguments PostFeedback {Body} body.
Arguments GetStats {Body}.

(** What the outside world contributes while a request is handled: the
    clock, and the answer of [analyzePlantImage] to the uploaded image. *)
Record Env : Type := mkEnv {
  now : Date;
  aiResult : OpenAI.outcome OpenAI.DiseaseDetectionResult
}.

Section Handlers.
Context {S : Type} {storage : IStorage S}.

(** The state a handler runs in. *)
Record World : Type := mkWorld {
  store : S;
  session : SessionData;
  calls : list StorageCall
}.

(** Handlers are computations in a state monad over [World]. *)
Definition M (A : Type) : Type := World -> A * World.

Definition ret {A} (a : A) : M A := fun w => (a, w).

Definition bind {A B} (m : M A) (k : A -> M B) : M B :=
  fun w => let (a, w') := m w in k a w'.

Notation "x <- m ;; k" := (bind m (fun x => k))
  (at level 61, m at next level, right associativity).
Notation "m ;;; k" := (bind m (fun _ => k))
  (at level 61, right associativity).

(** A query on the storage, logged. *)
Definition query {A} (c : StorageCall) (f : S -> A) : M A :=
  fun w =>
    (f (store w),
     {| store := store w; session := session w; calls := calls w ++ [c] |}).

(** A [create*] call on the storage, logged. *)
Definition create {A} (c : StorageCall) (f : S -> A * S) : M A :=
  fun w =>
    let (a, s') := f (store w) in
    (a, {| store := s'; session := session w; calls := calls w ++ [c] |}).

(** [req.session.userId = id] *)
Definition set_session_userId (id : Z) : M unit :=
  fun w =>
    (tt, {| store := store w;
            session := {| userId := Some id |};
            calls := calls w |}).

(** [req.session.destroy(...)] *)
Definition session_destroy : M unit :=
  fun w =>
    (tt, {| store := store w; session := new_session; calls := calls w |}).

Definition get_session : M SessionData := fun w => (session w, w).

(** [res.status(code).json(body)]; [res.json(body)] is status 200. *)
Definition respond (code : Z) (body : Json) : M Response :=
  ret {| status := code; json := body |}.

(** The value of [req.session.userId] when it is truthy: set and not 0. *)
Definition truthy_userId (s : SessionData) : option Z :=
  match userId s with
  | Some id => if id =? 0 then None else Some id
  | None => None
  end.

(** The guard that opens the protected handlers:
    [if (!req.session.userId) return res.status(401).json(...)] *)
Definition with_session (k : Z -> M Response) : M Response :=
  s <- get_session ;;
  match truthy_userId s with
  | None => respond 401 (Message "Not authenticated")
  | Some id => k id
  end.

Section Schemas.
Variable Body : Type.
(** [schema.parse]; [None] when it throws. *)
Variable signinSchema_parse : Body -> option (string * string).
(** The parsed signup form is [{ confirmPassword, ...userData }]. *)
Variable signupSchema_parse : Body -> option (string * InsertUser.t).
(** Both take [{ ...req.body, userId }]. *)
Variable insertDiseaseReportSchema_parse :
  Body -> Z -> option InsertDiseaseReport.t.
Variable insertUserFeedbackSchema_parse :
  Body -> Z -> option InsertUserFeedback.t.
(** [parseInt]; [None] for NaN. *)
Variable parseInt : string -> IntOrNaN.

Definition signin (body : Body) : M Response :=
  match signinSchema_parse body with
  | None => respond 400 (Message "Invalid request")
  | Some (username, password) =>
      user <- query (CallGetUserByUsername username)
                    (getUserByUsername username) ;;
      match user with
      | None => respond 401 (Message "Invalid credentials")
      | Some user =>
          if negb (String.eqb (User.password user) password)
          then respond 401 (Message "Invalid credentials")
          else
            set_session_userId (User.id user) ;;;
            respond 200 (WrappedUser (without_password user))
      end
  end.

Definition signup (env : Env) (body : Body) : M Response :=
  match signupSchema_parse body with
  | None => respond 400 (Message "Invalid request")
  | Some (confirmPassword, userData) =>
      existingUser <- query (CallGetUserByUsername
                               (InsertUser.username userData))
                            (getUserByUsername
                               (InsertUser.username userData)) ;;
      match existingUser with
      | Some _ => respond 400 (Message "Username already exists")
      | None =>
          user <- create (CallCreateUser userData)
                         (createUser (now env) userData) ;;
          set_session_userId (User.id user) ;;;
          respond 200 (WrappedUser (without_password user))
      end
  end.

Definition signout : M Response :=
  session_destroy ;;;
  respond 200 (Message "Signed out successfully").

Definition auth_user : M Response :=
  with_session (fun userId =>
    user <- query (CallGetUser userId) (getUser userId) ;;
    match user with
    | None => respond 401 (Message "User not found")
    | Some user => respond 200 (JsonUser (without_password user))
    end).

Definition post_analyses (env : Env) (file : option File) : M Response :=
  with_session (fun userId =>
    match file with
    | None => respond 400 (Message "No image file provided")
    | Some file =>
        match aiResult env with
        | OpenAI.Throws => respond 500 AnalysisFailed
        | OpenAI.Returns aiResult =>
            let insertAnalysis :=
              {| InsertPlantAnalysis.userId := userId;
                 InsertPlantAnalysis.imagePath :=
                   ("/uploads/" ++ originalname file)%string;
                 InsertPlantAnalysis.diagnosis := OpenAI.disease aiResult;
                 InsertPlantAnalysis.confidence :=
                   OpenAI.confidence aiResult;
                 InsertPlantAnalysis.severity := OpenAI.severity aiResult;
                 InsertPlantAnalysis.isHealthy :=
                   JS.JBool (OpenAI.isHealthy aiResult);
                 InsertPlantAnalysis.description :=
                   OpenAI.description aiResult;
                 InsertPlantAnalysis.treatment :=
                   OpenAI.treatment aiResult |} in
            analysis <- create (CallCreatePlantAnalysis insertAnalysis)
                          (createPlantAnalysis (now env) insertAnalysis) ;;
            respond 200 (JsonAnalysis analysis)
        end
    end).

Definition get_analyses : M Response :=
  with_session (fun userId =>
    analyses <- query (CallGetPlantAnalysesByUser userId)
                      (getPlantAnalysesByUser userId) ;;
    respond 200 (JsonAnalyses analyses)).

Definition get_analysis_by_id (id : string) : M Response :=
  with_session (fun userId =>
    analysis <- query (CallGetPlantAnalysisById (parseInt id))
                      (getPlantAnalysisById (parseInt id)) ;;
    match analysis with
    | None => respond 404 (Message "Analysis not found")
    | Some analysis =>
        if negb (PlantAnalysis.userId analysis =? userId)
        then respond 404 (Message "Analysis not found")
        else respond 200 (JsonAnalysis analysis)
    end).

Definition post_disease_reports (env : Env) (body : Body) : M Response :=
  with_session (fun userId =>
    match insertDiseaseReportSchema_parse body userId with
    | None => respond 400 (Message "Invalid request")
    | Some reportData =>
        report <- create (CallCreateDiseaseReport reportData)
                         (createDiseaseReport (now env) reportData) ;;
        respond 200 (JsonReport report)
    end).

Definition get_disease_reports : M Response :=
  reports <- query CallGetDiseaseReports getDiseaseReports ;;
  respond 200 (JsonReports reports).

Definition post_feedback (env : Env) (body : Body) : M Response :=
  with_session (fun userId =>
    match insertUserFeedbackSchema_parse body userId with
    | None => respond 400 (Message "Invalid request")
    | Some feedbackData =>
        feedback <- create (CallCreateUserFeedback feedbackData)
                           (createUserFeedback (now env) feedbackData) ;;
        respond 200 (JsonFeedback feedback)
    end).

Definition get_stats : M Response :=
  with_session (fun userId =>
    analyses <- query (CallGetPlantAnalysesByUser userId)
                      (getPlantAnalysesByUser userId) ;;
    let healthyCount :=
      Z.of_nat (List.length (filter (fun a => JS.truthy (PlantAnalysis.isHealthy a))
                               analyses)) in
    let diseasedCount := Z.of_nat (List.length analyses) - healthyCount in
    respond 200 (JsonStats (Z.of_nat (List.length analyses))
                           healthyCount diseasedCount 15)).

(** [registerRoutes]: the handler each route is bound to. *)
Definition handle (env : Env) (req : Request Body) : M Response :=
  match req with
  | PostSignin body => signin body
  | PostSignup body => signup env body
  | PostSignout => signout
  | GetAuthUser => auth_user
  | PostAnalyses file => post_analyses env file
  | GetAnalyses => get_analyses
  | GetAnalysisById id => get_analysis_by_id id
  | PostDiseaseReports body => post_disease_reports env body
  | GetDiseaseReports => get_disease_reports
  | PostFeedback body => post_feedback env body
  | GetStats => get_stats
  end.


End Schemas.
End Handlers.

End Routes.

(* ================================================================= *)
(** ** Scenarios used to state the properties *)

Module Scenario.

(** A [create*] call on a [MemStorage], with the clock reading it sees. *)
Inductive CreateCall : Type :=
| CreateUser (now : Date) (insertUser : InsertUser.t)
| CreatePlantAnalysis (now : Date) (insertAnalysis : InsertPlantAnalysis.t)
| CreateDiseaseReport (now : Date) (insertReport : InsertDiseaseReport.t)
| CreateUserFeedback (now : Date) (insertFeedback : InsertUserFeedback.t).

(** The rows returned by a run of [create*] calls, per entity class and in
    call order. *)
Record Created : Type := mkCreated {
  created_users : list User.t;
  created_analyses : list PlantAnalysis.t;
  created_reports : list DiseaseReport.t;
  created_feedback : list UserFeedback.t
}.

Definition no_rows : Created := mkCreated [] [] [] [].

Definition record_row (c : CreateCall) (this : MemStorage.t) (out : Created)
  : Created * MemStorage.t :=
  match c with
  | CreateUser now u =>
      let (row, this') := MemStorage.createUser now u this in
      (mkCreated (created_users out ++ [row]) (created_analyses out)
                 (created_reports out) (created_feedback out), this')
  | CreatePlantAnalysis now a =>
      let (row, this') := MemStorage.createPlantAnalysis now a this in
      (mkCreated (created_users out) (created_analyses out ++ [row])
                 (created_reports out) (created_feedback out), this')
  | CreateDiseaseReport now r =>
      let (row, this') := MemStorage.createDiseaseReport now r this in
      (mkCreated (created_users out) (created_analyses out)
                 (created_reports out ++ [row]) (created_feedback out), this')
  | CreateUserFeedback now f =>
      let (row, this') := MemStorage.createUserFeedback now f this in
      (mkCreated (created_users out) (created_analyses out)
                 (created_reports out) (created_feedback out ++ [row]), this')
  end.

(** Run the calls from left to right. *)
Fixpoint run (cs : list CreateCall) (this : MemStorage.t) (out : Created)
  : Created * MemStorage.t :=
  match cs with
  | [] => (out, this)
  | c :: cs' =>
      let (out', this') := record_row c this out in run cs' this' out'
  end.

(** The ids [1, 2, ..., n]. *)
Definition ids_upto (n : nat) : list Z := map Z.of_nat (seq 1 n).

(** The timestamp of a row; a row without one sorts as the epoch. *)
Definition timestamp (createdAt : option Date) : Z :=
  match createdAt with
  | Some t => t
  | None => 0
  end.


(** A table and its counter agree: the keys are [1..n] in insertion order,
    every row carries its key as id, and the counter is [n + 1]. *)
Definition counter_ok {V} (idof : V -> Z) (m : JS.Map V) (cur : Z) : Prop :=
  JS.Map_keys m = ids_upto (List.length m)
  /\ map idof (JS.Map_values m) = JS.Map_keys m
  /\ cur = Z.of_nat (List.length m) + 1.

(** The state of a run: the four tables are in step with their counters
    and hold exactly the rows returned so far, in call order. *)
Definition in_step (out : Created) (this : MemStorage.t) : Prop :=
  (counter_ok User.id (MemStorage.users this) (MemStorage.currentUserId this)
   /\ JS.Map_values (MemStorage.users this) = created_users out)
  /\ (counter_ok PlantAnalysis.id (MemStorage.plantAnalyses this)
                 (MemStorage.currentAnalysisId this)
      /\ JS.Map_values (MemStorage.plantAnalyses this) = created_analyses out)
  /\ (counter_ok DiseaseReport.id (MemStorage.diseaseReports this)
                 (MemStorage.currentReportId this)
      /\ JS.Map_values (MemStorage.diseaseReports this) = created_reports out)
  /\ (counter_ok UserFeedback.id (MemStorage.userFeedback this)
                 (MemStorage.currentFeedbackId this)
      /\ JS.Map_values (MemStorage.userFeedback this) = created_feedback out).

End Scenario.

(** Statements about the route layer, and a concrete instance of the
    schemas to run it on. *)
Module RouteScenario.
Import Routes.


Section Statements.
Context {S : Type} {storage : IStorage S}.
Variable Body : Type.
Variable signinSchema_parse : Body -> option (string * string).
Variable signupSchema_parse : Body -> option (string * InsertUser.t).
Variable insertDiseaseReportSchema_parse :
  Body -> Z -> option InsertDiseaseReport.t.
Variable insertUserFeedbackSchema_parse :
  Body -> Z -> option InsertUserFeedback.t.
Variable parseInt : string -> IntOrNaN.

(** The application: all routes, over the given storage and schemas. *)
Definition app : Env -> Request Body -> M Response :=
  handle Body signinSchema_parse signupSchema_parse
         insertDiseaseReportSchema_parse insertUserFeedbackSchema_parse
         parseInt.



End Statements.

Section Reachability.
Variable Body : Type.
Variable signinSchema_parse : Body -> option (string * string).
Variable signupSchema_parse : Body -> option (string * InsertUser.t).
Variable insertDiseaseReportSchema_parse :
  Body -> Z -> option InsertDiseaseReport.t.
Variable insertUserFeedbackSchema_parse :
  Body -> Z -> option InsertUserFeedback.t.
Variable parseInt : string -> IntOrNaN.

(** The states of a [MemStorage] that signup requests (of any client, at
    any time, with any body) can produce from the empty store. *)
Inductive signup_reachable : MemStorage.t -> Prop :=
| reachable_fresh : signup_reachable MemStorage.constructor
| reachable_signup (env : Env) (body : Body) (w : World) :
    signup_reachable (store w) ->
    signup_reachable
      (store (snd (app Body signinSchema_parse signupSchema_parse
                       insertDiseaseReportSchema_parse
                       insertUserFeedbackSchema_parse parseInt
                       env (PostSignup body) w))).
End Reachability.

(** *** A concrete instance *)

(** Request bodies that are already in the shape a schema accepts, or
    not. *)
Inductive SampleBody : Type :=
| SigninForm (username password : string)
| SignupForm (confirmPassword : string) (userData : InsertUser.t)
| ReportForm (report : InsertDiseaseReport.t)
| FeedbackForm (feedback : InsertUserFeedback.t)
| Malformed.

Definition sample_signin (b : SampleBody) : option (string * string) :=
  match b with SigninForm u p => Some (u, p) | _ => None end.

Definition sample_signup (b : SampleBody) : option (string * InsertUser.t) :=
  match b with SignupForm c u => Some (c, u) | _ => None end.

Definition sample_report (b : SampleBody) (userId : Z)
  : option InsertDiseaseReport.t :=
  match b with ReportForm r => Some r | _ => None end.

Definition sample_feedback (b : SampleBody) (userId : Z)
  : option InsertUserFeedback.t :=
  match b with FeedbackForm f => Some f | _ => None end.

Definition digit_value (c : ascii) : option Z :=
  let n := nat_of_ascii c in
  if ((48 <=? n) && (n <=? 57))%nat then Some (Z.of_nat (n - 48)) else None.

Fixpoint leading_digits (s : string) (acc : option Z) : option Z :=
  match s with
  | EmptyString => acc
  | String c s' =>
      match digit_value c with
      | Some d =>
          leading_digits s'
            (Some (10 * match acc with Some a => a | None => 0 end + d))
      | None => acc
      end
  end.

(** [parseInt] on strings that start with decimal digits; NaN otherwise. *)
Definition sample_parseInt (s : string) : IntOrNaN := leading_digits s None.

Definition sample_app
  : Env -> Request SampleBody -> @M MemStorage.t Response :=
  app SampleBody sample_signin sample_signup sample_report sample_feedback
      sample_parseInt.

Definition sample_env (now : Date) : Env :=
  {| now := now; aiResult := OpenAI.Throws |}.

Definition alice : InsertUser.t :=
  InsertUser.mk "alice" "wonderland" (JS.value "alice@example.org")
                JS.undefined JS.null.

Definition bob : InsertUser.t :=
  InsertUser.mk "bob" "builder" JS.undefined JS.undefined JS.undefined.

(** The store after Alice and then Bob signed up. *)
Definition two_users : MemStorage.t :=
  snd (MemStorage.createUser 2000 bob
         (snd (MemStorage.createUser 1000 alice MemStorage.constructor))).

(** The usernames stored, in insertion order. *)
Definition usernames (this : MemStorage.t) : list string :=
  map User.username (JS.Map_values (MemStorage.users this)).

(** The user table is consistent: usernames are pairwise distinct and every
    key is below the counter. *)
Definition users_ok (this : MemStorage.t) : Prop :=
  NoDup (usernames this)
  /\ forall k, In k (JS.Map_keys (MemStorage.users this)) ->
               k < MemStorage.currentUserId this.

(** *** Concrete worlds *)

Definition sample_world (st : MemStorage.t) (uid : option Z)
  : @World MemStorage.t :=
  mkWorld st {| userId := uid |} [].

(** The store after Alice signed up through the route. *)
Definition after_alice : MemStorage.t :=
  store (snd (sample_app (sample_env 1000)
                (PostSignup (SignupForm "wonderland" alice))
                (sample_world MemStorage.constructor None))).

Definition aloe_rust : InsertPlantAnalysis.t :=
  {| InsertPlantAnalysis.userId := 1;
     InsertPlantAnalysis.imagePath := "/uploads/aloe.jpg";
     InsertPlantAnalysis.diagnosis := JS.JStr "Aloe Rust";
     InsertPlantAnalysis.confidence := JS.Finite (9 # 10);
     InsertPlantAnalysis.severity := JS.JStr "moderate";
     InsertPlantAnalysis.isHealthy := JS.JUndefined;
     InsertPlantAnalysis.description := JS.JStr "Rusty patches";
     InsertPlantAnalysis.treatment := JS.JNull |}.

(** Alice and Bob signed up, and Alice has one analysis. *)
Definition with_analysis : MemStorage.t :=
  snd (MemStorage.createPlantAnalysis 3000 aloe_rust two_users).

(** Feedback on an analysis that does not exist. *)
Definition dangling_feedback : InsertUserFeedback.t :=
  {| InsertUserFeedback.analysisId := 42;
     InsertUserFeedback.comment := JS.value "helpful" |}.

(** A stand-in for [JSON.parse] that knows two texts. *)
Definition sample_JSON_parse (text : string) : option JS.jsval :=
  if String.eqb text "{}" then Some (JS.JObj [])
  else if String.eqb text "HEALTHY"
       then Some (JS.JObj [("disease", JS.JStr "Healthy");
                           ("confidence", JS.JNum (JS.Finite (3 # 2)));
                           ("isHealthy", JS.JBool true);
                           ("description", JS.JStr "")])
       else None.

End RouteScenario.

(** Further scenarios: the states a [MemStorage] goes through, and the
    routes that write. *)
Module Coverage.
Import Routes.

(** The storage after the [create*] calls [cs], made on a fresh one. *)
Definition fresh_run (cs : list Scenario.CreateCall) : MemStorage.t :=
  snd (Scenario.run cs MemStorage.constructor Scenario.no_rows).

(** The routes that call a [create*] operation. *)
Definition creating {Body} (req : Request Body) : bool :=
  match req with
  | PostSignup _ | PostAnalyses _ | PostDiseaseReports _ | PostFeedback _ =>
      true
  | _ => false
  end.


(** The row the upload route asks the storage to create. *)
Definition upload_row (userId : Z) (file : File)
    (aiResult : OpenAI.DiseaseDetectionResult) : InsertPlantAnalysis.t :=
  {| InsertPlantAnalysis.userId := userId;
     InsertPlantAnalysis.imagePath :=
       ("/uploads/" ++ originalname file)%string;
     InsertPlantAnalysis.diagnosis := OpenAI.disease aiResult;
     InsertPlantAnalysis.confidence := OpenAI.confidence aiResult;
     InsertPlantAnalysis.severity := OpenAI.severity aiResult;
     InsertPlantAnalysis.isHealthy := JS.JBool (OpenAI.isHealthy aiResult);
     InsertPlantAnalysis.description := OpenAI.description aiResult;
     InsertPlantAnalysis.treatment := OpenAI.treatment aiResult |}.

(** A parsed response with an out-of-range confidence and no severity. *)
Definition healthy_response : JS.jsval :=
  JS.JObj [("disease", JS.JStr "Healthy");
           ("confidence", JS.JNum (JS.Finite (3 # 2)));
           ("isHealthy", JS.JBool true);
           ("description", JS.JStr "")].

(** What the wrapper makes of [healthy_response]. *)
Definition healthy_result : OpenAI.DiseaseDetectionResult :=
  {| OpenAI.disease := JS.JStr "Healthy";
     OpenAI.confidence := JS.Finite 1;
     OpenAI.severity := JS.JUndefined;
     OpenAI.isHealthy := true;
     OpenAI.description := JS.JStr "No description available";
     OpenAI.treatment := JS.JStr "No treatment recommendations available" |}.

(** The answer to a body the schema rejects. *)
Definition invalid_request : Response :=
  {| status := 400; json := Message "Invalid request" |}.

(** The most storage calls a route makes for one request. *)
Definition max_calls {Body} (req : Request Body) : nat :=
  match req with
  | PostSignup _ => 2
  | PostSignout => 0
  | _ => 1
  end.

(** Three reports, created at 100, 200 and 300. *)
Definition three_reports : MemStorage.t :=
  let report name :=
    InsertDiseaseReport.mk name JS.undefined JS.undefined JS.undefined in
  snd (MemStorage.createDiseaseReport 300 (report "Valley")
         (snd (MemStorage.createDiseaseReport 200 (report "Hill")
                 (snd (MemStorage.createDiseaseReport 100 (report "Field")
                         MemStorage.constructor))))).

Definition aloe_photo : File := {| originalname := "aloe.jpg" |}.


Definition carol : InsertUser.t :=
  InsertUser.mk "carol" "singer" JS.undefined (JS.value "Carol") JS.undefined.

(** The clock at 4000 and an image analysis that returned. *)
Definition upload_env : Env :=
  {| now := 4000; aiResult := OpenAI.Returns healthy_result |}.

End Coverage.

(* ================================================================= *)
(** ** Properties of the JavaScript built-ins *)

Module JSFacts.
Import JS.

Section SortFacts.
Context {A : Type}.
Variable key : A -> Z.

(** The comparators of this program order by a key, largest first. *)
Let by_key_desc (a b : A) : Z := key b - key a.

Lemma sort_insert_perm (x : A) (l : list A) :
  Permutation (x :: l) (sort_insert by_key_desc x l).
Proof.
  induction l as [|y l IH]; simpl; [reflexivity|].
  destruct (0 <? by_key_desc x y).
  - rewrite perm_swap. now apply perm_skip.
  - reflexivity.
Qed.

Lemma Array_sort_perm (l : list A) :
  Permutation l (Array_sort by_key_desc l).
Proof.
  induction l as [|x l IH]; simpl; [constructor|].
  etransitivity; [apply perm_skip, IH | apply sort_insert_perm].
Qed.



End SortFacts.

Section MapFacts.
Context {V : Type}.

Lemma Map_get_set_same (k : Z) (v : V) (m : Map V) :
  Map_get k (Map_set k v m) = Some v.
Proof.
  induction m as [|[k' v'] m IH]; simpl.
  - now rewrite Z.eqb_refl.
  - destruct (k =? k') eqn:E; simpl; rewrite ?Z.eqb_refl, ?E; auto.
Qed.

Lemma Map_get_set_other (k k' : Z) (v : V) (m : Map V) :
  k' <> k -> Map_get k' (Map_set k v m) = Map_get k' m.
Proof.
  intros Hne. induction m as [|[k0 v0] m IH]; simpl.
  - destruct (k' =? k) eqn:E; [apply Z.eqb_eq in E; contradiction|reflexivity].
  - destruct (k =? k0) eqn:E; simpl.
    + apply Z.eqb_eq in E. subst k0.
      destruct (k' =? k) eqn:E'; [apply Z.eqb_eq in E'; contradiction|].
      reflexivity.
    + now rewrite IH.
Qed.

(** A key that is not in the map yet is appended. *)
Lemma Map_set_fresh (k : Z) (v : V) (m : Map V) :
  ~ In k (Map_keys m) -> Map_set k v m = m ++ [(k, v)].
Proof.
  induction m as [|[k' v'] m IH]; simpl; intros Hn; [reflexivity|].
  destruct (k =? k') eqn:E.
  - apply Z.eqb_eq in E. subst. tauto.
  - rewrite IH by tauto. reflexivity.
Qed.

Lemma Map_get_In (k : Z) (v : V) (m : Map V) :
  Map_get k m = Some v -> In v (Map_values m).
Proof.
  induction m as [|[k' v'] m IH]; simpl; [discriminate|].
  destruct (k =? k'); [injection 1; auto | auto].
Qed.

End MapFacts.

End JSFacts.

(* ================================================================= *)
(** ** Properties of [MemStorage] *)

Module MemStorageSpec.
Import JS JSFacts Scenario.

Lemma getTime_or_0_timestamp (createdAt : option Date) :
  getTime_or_0 createdAt = timestamp createdAt.
Proof.
  destruct createdAt as [t|]; simpl; [|reflexivity].
  destruct (t =? 0) eqn:E; [apply Z.eqb_eq in E; now subst | reflexivity].
Qed.




(** The queries return the rows they selected, nothing more or less. *)
Lemma getDiseaseReports_perm (this : MemStorage.t) :
  Permutation (Map_values (MemStorage.diseaseReports this))
              (MemStorage.getDiseaseReports this).
Proof. apply Array_sort_perm. Qed.

Lemma getPlantAnalysesByUser_perm (this : MemStorage.t) (userId : Z) :
  Permutation
    (filter (fun a => PlantAnalysis.userId a =? userId)
            (Map_values (MemStorage.plantAnalyses this)))
    (MemStorage.getPlantAnalysesByUser userId this).
Proof. apply Array_sort_perm. Qed.

(** C4.  Each [create*] operation stores the row it returns; in that row an
    optional field that was absent (or null) is null, [isHealthy] is
    [false] when absent, and every supplied field is unchanged. *)
Theorem create_defaults_optional_fields (now : Date) (this : MemStorage.t) :
  (forall u : InsertUser.t,
      let (row, this') := MemStorage.createUser now u this in
      MemStorage.getUser (User.id row) this' = Some row
      /\ User.username row = InsertUser.username u
      /\ User.password row = InsertUser.password u
      /\ User.email row =
           match InsertUser.email u with value e => Some e | _ => None end
      /\ User.firstName row =
           match InsertUser.firstName u with value n => Some n | _ => None end
      /\ User.lastName row =
           match InsertUser.lastName u with value n => Some n | _ => None end)
  /\ (forall a : InsertPlantAnalysis.t,
      let (row, this') := MemStorage.createPlantAnalysis now a this in
      MemStorage.getPlantAnalysisById (Some (PlantAnalysis.id row)) this'
        = Some row
      /\ PlantAnalysis.userId row = InsertPlantAnalysis.userId a
      /\ PlantAnalysis.imagePath row = InsertPlantAnalysis.imagePath a
      /\ PlantAnalysis.diagnosis row = InsertPlantAnalysis.diagnosis a
      /\ PlantAnalysis.confidence row = InsertPlantAnalysis.confidence a
      /\ PlantAnalysis.description row =
           match InsertPlantAnalysis.description a with
           | JUndefined | JNull => JNull
           | supplied => supplied
           end
      /\ PlantAnalysis.severity row =
           match InsertPlantAnalysis.severity a with
           | JUndefined | JNull => JNull
           | supplied => supplied
           end
      /\ PlantAnalysis.treatment row =
           match InsertPlantAnalysis.treatment a with
           | JUndefined | JNull => JNull
           | supplied => supplied
           end
      /\ PlantAnalysis.isHealthy row =
           match InsertPlantAnalysis.isHealthy a with
           | JUndefined | JNull => JBool false
           | supplied => supplied
           end)
  /\ (forall r : InsertDiseaseReport.t,
      let (row, this') := MemStorage.createDiseaseReport now r this in
      In row (MemStorage.getDiseaseReports this')
      /\ DiseaseReport.location row = InsertDiseaseReport.location r
      /\ DiseaseReport.description row =
           match InsertDiseaseReport.description r with
           | value d => Some d | _ => None
           end
      /\ DiseaseReport.latitude row =
           match InsertDiseaseReport.latitude r with
           | value x => Some x | _ => None
           end
      /\ DiseaseReport.longitude row =
           match InsertDiseaseReport.longitude r with
           | value x => Some x | _ => None
           end)
  /\ (forall f : InsertUserFeedback.t,
      let (row, this') := MemStorage.createUserFeedback now f this in
      In row (MemStorage.getFeedbackByAnalysis
                (InsertUserFeedback.analysisId f) this')
      /\ UserFeedback.analysisId row = InsertUserFeedback.analysisId f
      /\ UserFeedback.comment row =
           match InsertUserFeedback.comment f with
           | value c => Some c | _ => None
           end).
Proof.
  split; [|split; [|split]].
  - intros u. unfold MemStorage.createUser, MemStorage.getUser. cbn.
    rewrite Map_get_set_same.
    destruct (InsertUser.email u), (InsertUser.firstName u),
      (InsertUser.lastName u); cbn; repeat split; reflexivity.
  - intros a.
    unfold MemStorage.createPlantAnalysis, MemStorage.getPlantAnalysisById.
    cbn. rewrite Map_get_set_same.
    repeat split; unfold nullish_coalesce;
      match goal with |- context [match ?x with _ => _ end] => destruct x end;
      reflexivity.
  - intros r. unfold MemStorage.createDiseaseReport. cbv beta iota zeta.
    split.
    + eapply Permutation_in; [apply getDiseaseReports_perm|].
      eapply Map_get_In. cbn. apply Map_get_set_same.
    + destruct (InsertDiseaseReport.description r),
        (InsertDiseaseReport.latitude r), (InsertDiseaseReport.longitude r);
        cbn; repeat split; reflexivity.
  - intros f. unfold MemStorage.createUserFeedback. cbv beta iota zeta.
    split.
    + unfold MemStorage.getFeedbackByAnalysis. apply filter_In. split.
      * eapply Map_get_In. cbn. apply Map_get_set_same.
      * cbn. apply Z.eqb_refl.
    + destruct (InsertUserFeedback.comment f); cbn; split; reflexivity.
Qed.

(** *** Identifiers *)

Lemma ids_upto_S (n : nat) :
  ids_upto (S n) = ids_upto n ++ [Z.of_nat n + 1].
Proof.
  unfold ids_upto. rewrite seq_S, map_app. simpl.
  do 2 f_equal. lia.
Qed.

Lemma ids_upto_bound (n : nat) (k : Z) :
  In k (ids_upto n) -> 1 <= k <= Z.of_nat n.
Proof.
  unfold ids_upto. rewrite in_map_iff. intros [i [<- Hi]].
  apply in_seq in Hi. lia.
Qed.

Lemma ids_upto_NoDup (n : nat) : NoDup (ids_upto n).
Proof.
  unfold ids_upto. apply Injective_map_NoDup.
  - intros a b. apply Nat2Z.inj.
  - apply seq_NoDup.
Qed.

Lemma counter_ok_new {V} (idof : V -> Z) : counter_ok idof Map_new 1.
Proof. repeat split. Qed.

(** [this.table.set(id, row)] with [id = this.counter++] appends the row
    and keeps table and counter in step. *)
Lemma counter_ok_set {V} (idof : V -> Z) (m : Map V) (cur : Z) (v : V) :
  counter_ok idof m cur -> idof v = cur ->
  Map_set cur v m = m ++ [(cur, v)]
  /\ counter_ok idof (Map_set cur v m) (cur + 1).
Proof.
  intros (Hk & Hid & Hc) Hv.
  assert (Hfresh : Map_set cur v m = m ++ [(cur, v)]).
  { apply Map_set_fresh. rewrite Hk. intros Hin.
    apply ids_upto_bound in Hin. lia. }
  split; [exact Hfresh|].
  rewrite Hfresh. unfold counter_ok, Map_keys, Map_values in *.
  rewrite !map_app, length_app, Nat.add_comm. simpl.
  rewrite ids_upto_S, Hid, Hk, Hv.
  repeat split; try (f_equal; f_equal; lia).
Qed.

Lemma in_step_fresh : in_step no_rows MemStorage.constructor.
Proof. repeat split. Qed.

Lemma table_step {V} (idof : V -> Z) (m : Map V) (cur : Z) (v : V)
    (rows : list V) :
  counter_ok idof m cur /\ Map_values m = rows -> idof v = cur ->
  counter_ok idof (Map_set cur v m) (cur + 1)
  /\ Map_values (Map_set cur v m) = rows ++ [v].
Proof.
  intros [Hok Hrows] Hv.
  destruct (counter_ok_set idof m cur v Hok Hv) as [Happ Hok'].
  split; [exact Hok'|].
  rewrite Happ. unfold Map_values in *. rewrite map_app, Hrows. reflexivity.
Qed.

Lemma record_row_in_step (c : CreateCall) (this : MemStorage.t)
    (out : Created) :
  in_step out this ->
  in_step (fst (record_row c this out)) (snd (record_row c this out)).
Proof.
  intros (Hu & Ha & Hr & Hf).
  destruct c; unfold in_step; cbn;
    (split; [|split; [|split]]); try assumption;
    (apply table_step; [assumption | reflexivity]).
Qed.

Lemma run_in_step (cs : list CreateCall) :
  forall this out,
    in_step out this ->
    in_step (fst (run cs this out)) (snd (run cs this out)).
Proof.
  induction cs as [|c cs IH]; intros this out H; simpl; [exact H|].
  pose proof (record_row_in_step c this out H) as H'.
  destruct (record_row c this out) as [out' this'].
  apply IH, H'.
Qed.

Lemma in_step_ids {V} (idof : V -> Z) (m : Map V) (cur : Z) (rows : list V) :
  counter_ok idof m cur /\ Map_values m = rows ->
  map idof rows = ids_upto (List.length rows) /\ NoDup (map idof rows).
Proof.
  intros [(Hk & Hid & _) <-].
  assert (E : map idof (Map_values m) = ids_upto (List.length (Map_values m))).
  { rewrite Hid, Hk. unfold Map_values. now rewrite length_map. }
  split; [exact E|]. rewrite E. apply ids_upto_NoDup.
Qed.

(** C3.  Starting from a fresh [MemStorage], after every sequence of
    [create*] calls the n-th created row of each entity class has id n
    (the ids of the rows created, in call order, are 1, 2, ..., n); the
    tables hold exactly these rows, so the ids stored in a table are
    pairwise distinct. *)
Theorem ids_auto_increment (cs : list CreateCall) :
  let (out, this) := run cs MemStorage.constructor no_rows in
  (map User.id (created_users out)
     = ids_upto (List.length (created_users out))
   /\ map PlantAnalysis.id (created_analyses out)
     = ids_upto (List.length (created_analyses out))
   /\ map DiseaseReport.id (created_reports out)
     = ids_upto (List.length (created_reports out))
   /\ map UserFeedback.id (created_feedback out)
     = ids_upto (List.length (created_feedback out)))
  /\ (Map_values (MemStorage.users this) = created_users out
      /\ Map_values (MemStorage.plantAnalyses this) = created_analyses out
      /\ Map_values (MemStorage.diseaseReports this) = created_reports out
      /\ Map_values (MemStorage.userFeedback this) = created_feedback out)
  /\ (NoDup (map User.id (Map_values (MemStorage.users this)))
      /\ NoDup (map PlantAnalysis.id
                  (Map_values (MemStorage.plantAnalyses this)))
      /\ NoDup (map DiseaseReport.id
                  (Map_values (MemStorage.diseaseReports this)))
      /\ NoDup (map UserFeedback.id
                  (Map_values (MemStorage.userFeedback this)))).
Proof.
  pose proof (run_in_step cs _ _ in_step_fresh) as H.
  destruct (run cs MemStorage.constructor no_rows) as [out this].
  destruct H as (Hu & Ha & Hr & Hf). simpl in *.
  pose proof (in_step_ids _ _ _ _ Hu) as [Eu Nu].
  pose proof (in_step_ids _ _ _ _ Ha) as [Ea Na].
  pose proof (in_step_ids _ _ _ _ Hr) as [Er Nr].
  pose proof (in_step_ids _ _ _ _ Hf) as [Ef Nf].
  destruct Hu as [_ Vu], Ha as [_ Va], Hr as [_ Vr], Hf as [_ Vf].
  rewrite Vu, Va, Vr, Vf. tauto.
Qed.

End MemStorageSpec.

(* ================================================================= *)
(** ** Properties of [analyzePlantImage] *)

Module OpenAISpec.
Import JS OpenAI.

Section Wrapper.
Variable StringToNumber : string -> number.
Variable ArrayToString : list jsval -> string.
Variable JSON_parse : string -> option jsval.

Let analyze := analyzePlantImage StringToNumber ArrayToString JSON_parse.
Let to_result := detection_result StringToNumber ArrayToString.



Lemma clamp_number (x : number) :
  x <> NaN ->
  in_unit_interval (number_max (Finite 0%Q) (number_min (Finite 1%Q) x)).
Proof.
  intros Hx. unfold in_unit_interval.
  destruct x as [| |q|]; [contradiction| | |]; simpl.
  - exists 0%Q. split; [reflexivity|]. split; [apply Qle_refl | discriminate].
  - destruct (Qle_bool 1 q) eqn:E1; simpl.
    + exists 1%Q. split; [reflexivity|]. split; [discriminate|apply Qle_refl].
    + destruct (Qle_bool q 0) eqn:E0.
      * exists 0%Q. split; [reflexivity|].
        split; [apply Qle_refl | discriminate].
      * exists q. split; [reflexivity|]. split.
        -- apply Qlt_le_weak, Qnot_le_lt. intros H.
           apply Qle_bool_iff in H. congruence.
        -- apply Qlt_le_weak, Qnot_le_lt. intros H.
           apply Qle_bool_iff in H. congruence.
  - exists 1%Q. split; [reflexivity|]. split; [discriminate|apply Qle_refl].
Qed.

Lemma clamp_NaN :
  number_max (Finite 0%Q) (number_min (Finite 1%Q) NaN) = NaN.
Proof. reflexivity. Qed.

(** The confidence is within [0, 1] whenever the parsed field converts to
    a number, and is NaN otherwise. *)
Lemma confidence_clamped (result : jsval) (r : DiseaseDetectionResult) :
  to_result result = Returns r ->
  let x := ToNumber StringToNumber ArrayToString
             (or_else (get result "confidence") (JNum (Finite 0%Q))) in
  (x <> NaN -> in_unit_interval (confidence r))
  /\ (x = NaN -> confidence r = NaN).
Proof.
  intros H x.
  assert (E : confidence r
              = number_max (Finite 0%Q) (number_min (Finite 1%Q) x)).
  { destruct result; try discriminate; injection H as <-; reflexivity. }
  rewrite E. split.
  - apply clamp_number.
  - intros ->. reflexivity.
Qed.

(** What is not a JSON value other than [null] makes the function throw. *)
Lemma analyzePlantImage_throws (content : option string) :
  JSON_parse (content_or_default content) = None
  \/ JSON_parse (content_or_default content) = Some JNull ->
  analyze (Content content) = Throws.
Proof.
  unfold analyze, analyzePlantImage. intros [-> | ->]; reflexivity.
Qed.


(** C9 (the confidence of a response whose [confidence] is not numeric).
    For the parsed response
    [{ "disease": "Leaf Spot", "confidence": { "score": 0.9 } }] the clamp
    yields NaN, which is not in the interval from 0 to 1. *)
Theorem confidence_NaN_for_non_numeric :
  exists r,
    to_result
      (JObj [("disease", JStr "Leaf Spot");
             ("confidence", JObj [("score", JNum (Finite (9 # 10)))])])
    = Returns r
    /\ confidence r = NaN
    /\ ~ in_unit_interval (confidence r).
Proof.
  eexists. split; [reflexivity|]. split; [reflexivity|].
  intros [q [H _]]. discriminate H.
Qed.

End Wrapper.

End OpenAISpec.

(* ================================================================= *)
(** ** Properties of the routes, for every storage *)

Module RoutesSpec.
Import Routes RouteScenario.

#[local] Ltac unfold_handlers :=
  unfold app, handle, signin, signup, signout, auth_user, post_analyses,
    get_analyses, get_analysis_by_id, post_disease_reports,
    get_disease_reports, post_feedback, get_stats, with_session, bind,
    query, create, get_session, set_session_userId, session_destroy,
    respond, ret.

#[local] Ltac case_split :=
  repeat (match goal with
          | |- context [match ?x with _ => _ end] =>
              lazymatch x with
              | context [match _ with _ => _ end] => fail
              | _ => destruct x eqn:?
              end
          end; cbn).

Section Generic.
Context {S : Type} {storage : IStorage S}.
Variable Body : Type.
Variable signinSchema_parse : Body -> option (string * string).
Variable signupSchema_parse : Body -> option (string * InsertUser.t).
Variable insertDiseaseReportSchema_parse :
  Body -> Z -> option InsertDiseaseReport.t.
Variable insertUserFeedbackSchema_parse :
  Body -> Z -> option InsertUserFeedback.t.
Variable parseInt : string -> IntOrNaN.

Let run := app Body signinSchema_parse signupSchema_parse
               insertDiseaseReportSchema_parse
               insertUserFeedbackSchema_parse parseInt.


Lemma with_session_admits (k : Z -> @M S Response) (w : @World S) (id : Z) :
  truthy_userId (session w) = Some id ->
  with_session k w = k id w.
Proof.
  intros H. unfold with_session, bind, get_session. now rewrite H.
Qed.




(** C8.  For a request of a signed-in user, [GET /api/analyses/:id]
    answers 404 whenever the requested analysis does not exist or belongs
    to another user, and returns the analysis exactly when it exists and
    its [userId] is the session user's id. *)
Theorem analysis_route_enforces_ownership
    (env : Env) (id : string) (w : World) (uid : Z) :
  truthy_userId (session w) = Some uid ->
  let found := getPlantAnalysisById (parseInt id) (store w) in
  let res := fst (run env (GetAnalysisById id) w) in
  ((found = None
    \/ exists a, found = Some a /\ PlantAnalysis.userId a <> uid) ->
   res = {| status := 404; json := Message "Analysis not found" |})
  /\ (forall a : PlantAnalysis.t,
        res = {| status := 200; json := JsonAnalysis a |}
        <-> found = Some a /\ PlantAnalysis.userId a = uid).
Proof.
  intros Hs found res.
  assert (E : res =
    match found with
    | None => {| status := 404; json := Message "Analysis not found" |}
    | Some a =>
        if negb (PlantAnalysis.userId a =? uid)
        then {| status := 404; json := Message "Analysis not found" |}
        else {| status := 200; json := JsonAnalysis a |}
    end).
  { subst res found. unfold run, app, handle, get_analysis_by_id.
    rewrite (with_session_admits _ _ _ Hs).
    unfold bind, query, respond, ret. cbn.
    destruct (getPlantAnalysisById (parseInt id) (store w)) as [a|];
      [destruct (negb (PlantAnalysis.userId a =? uid))|]; reflexivity. }
  rewrite E. clear E. split.
  - intros [-> | [a [-> Hne]]]; [reflexivity|].
    apply Z.eqb_neq in Hne. now rewrite Hne.
  - intros a. destruct found as [a'|].
    + destruct (PlantAnalysis.userId a' =? uid) eqn:Eq; simpl.
      * apply Z.eqb_eq in Eq. split.
        -- intros H. injection H as <-. auto.
        -- intros [H _]. injection H as <-. reflexivity.
      * apply Z.eqb_neq in Eq. split; [discriminate|].
        intros [H Hu]. injection H as <-. contradiction.
    + split; [discriminate | intros [H _]; discriminate].
Qed.


End Generic.

End RoutesSpec.

(* ================================================================= *)
(** ** Properties of the routes over [MemStorage] *)

Module MemRoutesSpec.
Import JS JSFacts Routes RouteScenario.

Section OnMemStorage.
Variable Body : Type.
Variable signinSchema_parse : Body -> option (string * string).
Variable signupSchema_parse : Body -> option (string * InsertUser.t).
Variable insertDiseaseReportSchema_parse :
  Body -> Z -> option InsertDiseaseReport.t.
Variable insertUserFeedbackSchema_parse :
  Body -> Z -> option InsertUserFeedback.t.
Variable parseInt : string -> IntOrNaN.

Let run : Env -> Request Body -> @M MemStorage.t Response :=
  app Body signinSchema_parse signupSchema_parse
      insertDiseaseReportSchema_parse insertUserFeedbackSchema_parse parseInt.

Let reachable : MemStorage.t -> Prop :=
  signup_reachable Body signinSchema_parse signupSchema_parse
    insertDiseaseReportSchema_parse insertUserFeedbackSchema_parse parseInt.

(** [getUserByUsername] finds a user exactly when the name is stored. *)
Lemma getUserByUsername_None (name : string) (this : MemStorage.t) :
  MemStorage.getUserByUsername name this = None ->
  ~ In name (usernames this).
Proof.
  unfold MemStorage.getUserByUsername, usernames. intros Hfind Hin.
  apply in_map_iff in Hin. destruct Hin as [u [Hu Hin]].
  pose proof (find_none _ _ Hfind u Hin) as Hneq. simpl in Hneq.
  rewrite Hu, String.eqb_refl in Hneq. discriminate.
Qed.

Lemma getUserByUsername_Some (name : string) (this : MemStorage.t)
    (u : User.t) :
  MemStorage.getUserByUsername name this = Some u ->
  In u (Map_values (MemStorage.users this)) /\ User.username u = name.
Proof.
  unfold MemStorage.getUserByUsername. intros Hfind.
  apply find_some in Hfind. destruct Hfind as [Hin Heq].
  split; [exact Hin|]. now apply String.eqb_eq.
Qed.

Lemma users_ok_fresh : users_ok MemStorage.constructor.
Proof.
  split; [constructor|]. simpl. tauto.
Qed.

(** Creating a user under a name nobody has keeps the table consistent. *)
Lemma createUser_users_ok (now : Date) (u : InsertUser.t)
    (this : MemStorage.t) :
  users_ok this ->
  ~ In (InsertUser.username u) (usernames this) ->
  users_ok (snd (MemStorage.createUser now u this)).
Proof.
  intros [Hnd Hkeys] Hnew.
  unfold users_ok, usernames, MemStorage.createUser. cbn.
  rewrite Map_set_fresh
    by (intros Hin; apply Hkeys in Hin; lia).
  unfold Map_values, Map_keys. rewrite !map_app. cbn. split.
  - apply NoDup_app.
    + exact Hnd.
    + repeat constructor. simpl. tauto.
    + intros x Hx [<- | []]. exact (Hnew Hx).
  - intros k Hk. apply in_app_or in Hk.
    destruct Hk as [Hk | [<- | []]]; [apply Hkeys in Hk|]; lia.
Qed.

Lemma signup_users_ok (env : Env) (body : Body) (w : World) :
  users_ok (store w) ->
  users_ok (store (snd (run env (PostSignup body) w))).
Proof.
  intros Hok. unfold run, app, handle, signup.
  destruct (signupSchema_parse body) as [[confirm userData]|];
    [|exact Hok].
  unfold bind, query, create, set_session_userId, respond, ret. cbn.
  destruct (MemStorage.getUserByUsername (InsertUser.username userData)
              (store w)) eqn:Hfind; [exact Hok|].
  cbn. apply createUser_users_ok; [exact Hok|].
  now apply getUserByUsername_None.
Qed.

Lemma reachable_users_ok (st : MemStorage.t) : reachable st -> users_ok st.
Proof.
  induction 1 as [|env body w _ IH].
  - apply users_ok_fresh.
  - apply signup_users_ok, IH.
Qed.

(** C2.  In every storage state that signup requests can produce from the
    empty store no two users have the same username; and whenever
    [getUserByUsername] finds a user with the requested name, signup
    answers 400 "Username already exists" and creates no user. *)
Theorem usernames_stay_unique (st : MemStorage.t) :
  reachable st ->
  NoDup (usernames st)
  /\ forall (env : Env) (body : Body) (sess : SessionData)
            (log : list StorageCall) (confirm : string)
            (userData : InsertUser.t) (existing : User.t),
      signupSchema_parse body = Some (confirm, userData) ->
      MemStorage.getUserByUsername (InsertUser.username userData) st
        = Some existing ->
      run env (PostSignup body) (mkWorld st sess log)
      = ({| status := 400; json := Message "Username already exists" |},
         mkWorld st sess
           (log ++ [CallGetUserByUsername (InsertUser.username userData)])).
Proof.
  intros Hreach. split.
  - apply reachable_users_ok, Hreach.
  - intros env body sess log confirm userData existing Hparse Hfind.
    unfold run, app, handle, signup. rewrite Hparse.
    unfold bind, query, respond, ret. cbn. now rewrite Hfind.
Qed.

(** C7.  In every storage state, [createUserFeedback] stores the feedback
    it is given whatever its [analysisId] is: the call never looks at the
    analyses, so it also succeeds when no analysis has that id.  The
    feedback route of a signed-in user makes this one storage call and no
    other: it does not check that the analysis exists. *)
Theorem feedback_needs_no_analysis
    (this : MemStorage.t) (now : Date) (f : InsertUserFeedback.t) :
  let (row, this') := MemStorage.createUserFeedback now f this in
  (UserFeedback.analysisId row = InsertUserFeedback.analysisId f
   /\ Map_get (UserFeedback.id row) (MemStorage.userFeedback this')
      = Some row
   /\ In row (MemStorage.getFeedbackByAnalysis
                (InsertUserFeedback.analysisId f) this')
   /\ MemStorage.plantAnalyses this' = MemStorage.plantAnalyses this)
  /\ forall (env : Env) (body : Body) (sess : SessionData)
            (log : list StorageCall) (uid : Z),
      Routes.now env = now ->
      truthy_userId sess = Some uid ->
      insertUserFeedbackSchema_parse body uid = Some f ->
      run env (PostFeedback body) (mkWorld this sess log)
      = ({| status := 200; json := JsonFeedback row |},
         mkWorld this' sess (log ++ [CallCreateUserFeedback f])).
Proof.
  unfold MemStorage.createUserFeedback. cbv beta iota zeta. split.
  - split; [reflexivity|]. split; [|split; [|reflexivity]].
    + cbn. apply Map_get_set_same.
    + unfold MemStorage.getFeedbackByAnalysis. apply filter_In. split.
      * eapply Map_get_In. cbn. apply Map_get_set_same.
      * cbn. apply Z.eqb_refl.
  - intros env body sess log uid Hnow Hs Hparse.
    unfold run, app, handle, post_feedback.
    rewrite (RoutesSpec.with_session_admits _ (mkWorld this sess log) uid Hs),
      Hparse.
    unfold bind, create, respond, ret. cbn. rewrite Hnow. reflexivity.
Qed.

End OnMemStorage.

End MemRoutesSpec.

(* ================================================================= *)
(** ** Concrete runs *)

Module Runs.
Import JS Routes RouteScenario.


Example disease_reports_run :
  sample_app (sample_env 0) GetDiseaseReports
             (sample_world MemStorage.constructor None)
  = ({| status := 200; json := JsonReports [] |},
     mkWorld MemStorage.constructor new_session [CallGetDiseaseReports]).
Proof. reflexivity. Qed.




Lemma analysis_route_enforces_ownership_witness :
  truthy_userId (session (sample_world with_analysis (Some 1))) = Some 1
  /\ ((MemStorage.getPlantAnalysisById (sample_parseInt "1") with_analysis
         = None
       \/ exists a,
           MemStorage.getPlantAnalysisById (sample_parseInt "1")
             with_analysis = Some a
           /\ PlantAnalysis.userId a <> 1) ->
      fst (sample_app (sample_env 0) (GetAnalysisById "1")
             (sample_world with_analysis (Some 1)))
      = {| status := 404; json := Message "Analysis not found" |})
  /\ (forall a : PlantAnalysis.t,
        fst (sample_app (sample_env 0) (GetAnalysisById "1")
               (sample_world with_analysis (Some 1)))
        = {| status := 200; json := JsonAnalysis a |}
        <-> MemStorage.getPlantAnalysisById (sample_parseInt "1")
              with_analysis = Some a
            /\ PlantAnalysis.userId a = 1).
Proof.
  split; [reflexivity|].
  exact (RoutesSpec.analysis_route_enforces_ownership
           SampleBody sample_signin sample_signup sample_report
           sample_feedback sample_parseInt
           (sample_env 0) "1" (sample_world with_analysis (Some 1)) 1
           eq_refl).
Defined.

Lemma after_alice_reachable :
  signup_reachable SampleBody sample_signin sample_signup sample_report
    sample_feedback sample_parseInt after_alice.
Proof.
  unfold after_alice, sample_app.
  apply reachable_signup. apply reachable_fresh.
Defined.

Lemma usernames_stay_unique_witness :
  signup_reachable SampleBody sample_signin sample_signup sample_report
    sample_feedback sample_parseInt after_alice
  /\ NoDup (usernames after_alice)
  /\ sample_app (sample_env 2000)
       (PostSignup (SignupForm "looking-glass" alice))
       (sample_world after_alice None)
     = ({| status := 400; json := Message "Username already exists" |},
        mkWorld after_alice new_session [CallGetUserByUsername "alice"]).
Proof.
  split; [exact after_alice_reachable|].
  destruct (MemRoutesSpec.usernames_stay_unique
              SampleBody sample_signin sample_signup sample_report
              sample_feedback sample_parseInt after_alice
              after_alice_reachable) as [Hnodup Hsignup].
  split; [exact Hnodup|].
  exact (Hsignup (sample_env 2000) (SignupForm "looking-glass" alice)
                 new_session [] "looking-glass" alice
                 (User.mk 1 "alice" "wonderland" (Some "alice@example.org")
                          None None (Some 1000))
                 eq_refl eq_refl).
Defined.

Lemma feedback_needs_no_analysis_witness :
  MemStorage.getPlantAnalysisById (Some 42) two_users = None
  /\ exists row this',
      MemStorage.createUserFeedback 5000 dangling_feedback two_users
        = (row, this')
      /\ In row (MemStorage.getFeedbackByAnalysis 42 this')
      /\ sample_app (mkEnv 5000 OpenAI.Throws)
           (PostFeedback (FeedbackForm dangling_feedback))
           (sample_world two_users (Some 2))
         = ({| status := 200; json := JsonFeedback row |},
            mkWorld this' (mkSession (Some 2))
                    [CallCreateUserFeedback dangling_feedback]).
Proof.
  split; [reflexivity|].
  pose proof (MemRoutesSpec.feedback_needs_no_analysis
                SampleBody sample_signin sample_signup sample_report
                sample_feedback sample_parseInt
                two_users 5000 dangling_feedback) as H.
  destruct (MemStorage.createUserFeedback 5000 dangling_feedback two_users)
    as [row this'].
  destruct H as [(_ & _ & Hin & _) Hroute].
  exists row, this'. split; [reflexivity|]. split; [exact Hin|].
  exact (Hroute (mkEnv 5000 OpenAI.Throws) (FeedbackForm dangling_feedback)
                (mkSession (Some 2)) [] 2 eq_refl eq_refl eq_refl).
Defined.


(** *** Sample runs of the storage and of the AI wrapper *)

Example three_creates :
  let (out, this) :=
    Scenario.run
      [Scenario.CreateUser 10 alice;
       Scenario.CreateUserFeedback 20 dangling_feedback;
       Scenario.CreateUser 30 bob]
      MemStorage.constructor Scenario.no_rows in
  map User.id (Scenario.created_users out) = [1; 2]
  /\ map UserFeedback.id (Scenario.created_feedback out) = [1]
  /\ MemStorage.currentUserId this = 3.
Proof. repeat split. Qed.

Example newest_report_first :
  let report name :=
    InsertDiseaseReport.mk name JS.undefined JS.undefined JS.undefined in
  let s1 := snd (MemStorage.createDiseaseReport 100 (report "Field A")
                   MemStorage.constructor) in
  let s2 := snd (MemStorage.createDiseaseReport 300 (report "Field B") s1) in
  let s3 := snd (MemStorage.createDiseaseReport 300 (report "field c") s2) in
  map DiseaseReport.location (MemStorage.getDiseaseReports s3)
    = ["Field B"; "field c"; "Field A"]
  /\ map DiseaseReport.id (MemStorage.getDiseaseReportsByLocation "FIELD" s3)
    = [2; 3; 1]
  /\ map DiseaseReport.id (MemStorage.getDiseaseReportsByLocation "d c" s3)
    = [3].
Proof. repeat split. Qed.

Example confidence_above_one_is_clamped :
  exists r,
    OpenAI.analyzePlantImage (fun _ => NaN) (fun _ => "") sample_JSON_parse
      (OpenAI.Content (Some "HEALTHY")) = OpenAI.Returns r
    /\ OpenAI.confidence r = Finite 1
    /\ OpenAI.severity r = JUndefined.
Proof. eexists. repeat split. Qed.

Example own_analysis_is_returned :
  status (fst (sample_app (sample_env 0) (GetAnalysisById "1")
                 (sample_world with_analysis (Some 1)))) = 200
  /\ status (fst (sample_app (sample_env 0) (GetAnalysisById "1")
                    (sample_world with_analysis (Some 2)))) = 404
  /\ status (fst (sample_app (sample_env 0) (GetAnalysisById "7")
                    (sample_world with_analysis (Some 1)))) = 404
  /\ status (fst (sample_app (sample_env 0) (GetAnalysisById "1")
                    (sample_world with_analysis None))) = 401.
Proof. repeat split. Qed.

End Runs.

(* ================================================================= *)
(** ** Further properties of [MemStorage] *)

Module MemStorageMore.
Import JS JSFacts Scenario Coverage.

(** *** Helpers on maps and sorting *)

Lemma Map_get_None_keys {V} (k : Z) (m : Map V) :
  Map_get k m = None <-> ~ In k (Map_keys m).
Proof.
  induction m as [|[k' v'] m IH]; simpl; [tauto|].
  destruct (k =? k') eqn:E.
  - apply Z.eqb_eq in E. subst. split; [discriminate | tauto].
  - apply Z.eqb_neq in E. rewrite IH. split; [intros H [?|?]|]; try tauto.
    congruence.
Qed.

Lemma Map_get_id {V} (idof : V -> Z) (m : Map V) (k : Z) (v : V) :
  map idof (Map_values m) = Map_keys m ->
  Map_get k m = Some v -> idof v = k.
Proof.
  induction m as [|[k' v'] m IH]; simpl; [discriminate|].
  intros Hids. injection Hids as Hhd Htl.
  destruct (k =? k') eqn:E.
  - apply Z.eqb_eq in E. intros H. injection H as <-. congruence.
  - now apply IH.
Qed.

Lemma ids_upto_In (n : nat) (k : Z) :
  1 <= k <= Z.of_nat n -> In k (ids_upto n).
Proof.
  intros Hk. unfold ids_upto. apply in_map_iff.
  exists (Z.to_nat k). split; [lia|]. apply in_seq. lia.
Qed.

(** What a table in step with its counter answers to a lookup. *)
Lemma counter_ok_lookup {V} (idof : V -> Z) (m : Map V) (cur : Z) (id : Z) :
  counter_ok idof m cur ->
  (1 <= id < cur -> exists v, Map_get id m = Some v /\ idof v = id)
  /\ (~ 1 <= id < cur -> Map_get id m = None).
Proof.
  intros (Hk & Hid & Hc). split.
  - intros Hr. destruct (Map_get id m) as [v|] eqn:E.
    + exists v. split; [reflexivity|]. eapply Map_get_id; eassumption.
    + exfalso. apply Map_get_None_keys in E. apply E. rewrite Hk.
      apply ids_upto_In. lia.
  - intros Hr. apply Map_get_None_keys. rewrite Hk. intros Hin.
    apply MemStorageSpec.ids_upto_bound in Hin. lia.
Qed.

Lemma fresh_run_in_step (cs : list CreateCall) :
  in_step (fst (run cs MemStorage.constructor no_rows)) (fresh_run cs).
Proof. apply MemStorageSpec.run_in_step, MemStorageSpec.in_step_fresh. Qed.





Section SortMore.
Context {A : Type}.
Variable key : A -> Z.
Let cmp (a b : A) : Z := key b - key a.

(** An element only moves past elements with a larger key. *)
Lemma sort_insert_same_key (t : Z) (x : A) (l : list A) :
  filter (fun a => key a =? t) (sort_insert cmp x l)
  = filter (fun a => key a =? t) (x :: l).
Proof.
  induction l as [|y l IH]; [reflexivity|].
  simpl sort_insert. destruct (0 <? cmp x y) eqn:E; [|reflexivity].
  apply Z.ltb_lt in E. unfold cmp in E.
  simpl. simpl in IH. rewrite IH.
  destruct (key x =? t) eqn:Ex, (key y =? t) eqn:Ey; try reflexivity.
  apply Z.eqb_eq in Ex, Ey. lia.
Qed.

Lemma Array_sort_same_key (t : Z) (l : list A) :
  filter (fun a => key a =? t) (Array_sort cmp l)
  = filter (fun a => key a =? t) l.
Proof.
  induction l as [|x l IH]; [reflexivity|].
  simpl Array_sort. rewrite sort_insert_same_key. simpl. now rewrite IH.
Qed.

Lemma sort_insert_smallest (x : A) (l : list A) :
  Forall (fun y => key x < key y) l -> sort_insert cmp x l = l ++ [x].
Proof.
  induction 1 as [|y l Hy _ IH]; [reflexivity|].
  simpl. unfold cmp at 1.
  destruct (0 <? key y - key x) eqn:E; [now rewrite IH|].
  apply Z.ltb_ge in E. lia.
Qed.

Lemma Array_sort_ascending (l : list A) :
  StronglySorted (fun a b => key a < key b) l ->
  Array_sort cmp l = rev l.
Proof.
  induction 1 as [|x l _ IH Hx]; [reflexivity|].
  simpl. rewrite IH. apply sort_insert_smallest.
  apply Forall_forall. intros y Hy. apply in_rev in Hy.
  rewrite Forall_forall in Hx. now apply Hx.
Qed.
End SortMore.

Lemma Array_sort_ext {A} (f g : A -> A -> Z) (l : list A) :
  (forall a b, f a b = g a b) -> Array_sort f l = Array_sort g l.
Proof.
  intros H. induction l as [|x l IH]; [reflexivity|].
  simpl. rewrite IH. generalize (Array_sort g l). intros l'.
  induction l' as [|y l' IH']; [reflexivity|].
  simpl. now rewrite H, IH'.
Qed.

(** The comparator of the list queries orders by timestamp. *)
Lemma newest_first_timestamp {A} (createdAt : A -> option Date)
    (l : list A) :
  Array_sort (fun a b => MemStorage.newest_first (createdAt a) (createdAt b))
             l
  = Array_sort (fun a b => timestamp (createdAt b) - timestamp (createdAt a))
               l.
Proof.
  apply Array_sort_ext. intros a b. unfold MemStorage.newest_first.
  now rewrite !MemStorageSpec.getTime_or_0_timestamp.
Qed.

(** *** Lookups *)

(** X1.  [getUserByUsername] answers [undefined] exactly when no stored
    user has the name; a user it returns is stored and has the name. *)
Theorem getUserByUsername_finds_stored_name
    (name : string) (this : MemStorage.t) :
  (MemStorage.getUserByUsername name this = None
   <-> ~ In name (RouteScenario.usernames this))
  /\ (forall u : User.t,
        MemStorage.getUserByUsername name this = Some u ->
        In u (Map_values (MemStorage.users this))
        /\ User.username u = name).
Proof.
  split; [split|].
  - apply MemRoutesSpec.getUserByUsername_None.
  - intros Hn.
    destruct (MemStorage.getUserByUsername name this) as [u|] eqn:E;
      [|reflexivity].
    exfalso. apply Hn.
    apply MemRoutesSpec.getUserByUsername_Some in E. destruct E as [Hin <-].
    unfold RouteScenario.usernames. now apply in_map.
  - intros u. apply MemRoutesSpec.getUserByUsername_Some.
Qed.

(** X2.  After any sequence of [create*] calls on a fresh storage,
    [getUser] and [getPlantAnalysisById] find a row exactly for the ids
    from 1 up to the counter, and the row found carries the id asked for;
    the NaN that [parseInt] gives for a non-numeric id finds nothing. *)
Theorem lookup_by_id_after_run (cs : list CreateCall) (id : Z) :
  let this := fresh_run cs in
  ((1 <= id < MemStorage.currentUserId this ->
    exists u, MemStorage.getUser id this = Some u /\ User.id u = id)
   /\ (~ 1 <= id < MemStorage.currentUserId this ->
       MemStorage.getUser id this = None))
  /\ ((1 <= id < MemStorage.currentAnalysisId this ->
       exists a, MemStorage.getPlantAnalysisById (Some id) this = Some a
                 /\ PlantAnalysis.id a = id)
      /\ (~ 1 <= id < MemStorage.currentAnalysisId this ->
          MemStorage.getPlantAnalysisById (Some id) this = None))
  /\ MemStorage.getPlantAnalysisById None this = None.
Proof.
  intros this. destruct (fresh_run_in_step cs) as ([Hu _] & [Ha _] & _).
  fold this in Hu, Ha.
  split; [|split; [|reflexivity]].
  - apply (counter_ok_lookup _ _ _ id Hu).
  - apply (counter_ok_lookup _ _ _ id Ha).
Qed.

(** *** Rows are never lost or changed *)

Lemma run_app (cs cs' : list CreateCall) (this : MemStorage.t)
    (out : Created) :
  run (cs ++ cs') this out
  = run cs' (snd (run cs this out)) (fst (run cs this out)).
Proof.
  revert this out. induction cs as [|c cs IH]; intros this out; simpl.
  - reflexivity.
  - destruct (record_row c this out) as [out' this']. apply IH.
Qed.

Lemma counter_ok_key_below {V} (idof : V -> Z) (m : Map V) (cur id : Z)
    (v : V) :
  counter_ok idof m cur -> Map_get id m = Some v -> id <> cur.
Proof.
  intros Hok Hget Heq. subst id.
  destruct (counter_ok_lookup idof m cur cur Hok) as [_ Hnone].
  rewrite Hnone in Hget by lia. discriminate.
Qed.

Lemma record_row_keeps_lookups (c : CreateCall) (this : MemStorage.t)
    (out : Created) (id : Z) :
  in_step out this ->
  (forall u, MemStorage.getUser id this = Some u ->
             MemStorage.getUser id (snd (record_row c this out)) = Some u)
  /\ (forall a, MemStorage.getPlantAnalysisById (Some id) this = Some a ->
               MemStorage.getPlantAnalysisById (Some id)
                 (snd (record_row c this out)) = Some a).
Proof.
  intros ([Hu _] & [Ha _] & _).
  destruct c; cbn; split; intros row Hrow; try exact Hrow;
    unfold MemStorage.getUser, MemStorage.getPlantAnalysisById in *; cbn;
    rewrite Map_get_set_other; try exact Hrow;
    eapply counter_ok_key_below; eassumption.
Qed.

Lemma run_keeps_lookups (cs : list CreateCall) (id : Z) :
  forall this out,
    in_step out this ->
    (forall u, MemStorage.getUser id this = Some u ->
               MemStorage.getUser id (snd (run cs this out)) = Some u)
    /\ (forall a, MemStorage.getPlantAnalysisById (Some id) this = Some a ->
                 MemStorage.getPlantAnalysisById (Some id)
                   (snd (run cs this out)) = Some a).
Proof.
  induction cs as [|c cs IH]; intros this out Hstep; simpl; [tauto|].
  pose proof (record_row_keeps_lookups c this out id Hstep) as [Hu Ha].
  pose proof (MemStorageSpec.record_row_in_step c this out Hstep) as Hstep'.
  destruct (record_row c this out) as [out' this'].
  destruct (IH this' out' Hstep') as [Hu' Ha']. simpl in *.
  split; auto.
Qed.

Lemma run_grows (cs : list CreateCall) :
  forall this out,
    let out' := fst (run cs this out) in
    (exists more, created_users out' = created_users out ++ more)
    /\ (exists more, created_analyses out' = created_analyses out ++ more)
    /\ (exists more, created_reports out' = created_reports out ++ more)
    /\ (exists more, created_feedback out' = created_feedback out ++ more).
Proof.
  induction cs as [|c cs IH]; intros this out; simpl.
  - repeat split; exists []; now rewrite app_nil_r.
  - destruct (record_row c this out) as [o1 t1] eqn:E.
    specialize (IH t1 o1). simpl in IH.
    destruct IH as ([mu Eu] & [ma Ea] & [mr Er] & [mf Ef]).
    rewrite Eu, Ea, Er, Ef.
    destruct c; cbn in E; injection E as <- <-; cbn;
      repeat split; eexists; rewrite <- ?app_assoc; reflexivity.
Qed.

(** X3.  The storage only ever appends.  Whatever [create*] calls follow,
    a user or analysis that a lookup by id returned is returned unchanged
    later on, and each table keeps its rows, in order, in front of the new
    ones. *)
Theorem rows_are_kept (cs cs' : list CreateCall) (id : Z) :
  let before := fresh_run cs in
  let after := fresh_run (cs ++ cs') in
  (forall u, MemStorage.getUser id before = Some u ->
             MemStorage.getUser id after = Some u)
  /\ (forall a, MemStorage.getPlantAnalysisById (Some id) before = Some a ->
               MemStorage.getPlantAnalysisById (Some id) after = Some a)
  /\ (exists more,
        Map_values (MemStorage.users after)
        = Map_values (MemStorage.users before) ++ more)
  /\ (exists more,
        Map_values (MemStorage.plantAnalyses after)
        = Map_values (MemStorage.plantAnalyses before) ++ more)
  /\ (exists more,
        Map_values (MemStorage.diseaseReports after)
        = Map_values (MemStorage.diseaseReports before) ++ more)
  /\ (exists more,
        Map_values (MemStorage.userFeedback after)
        = Map_values (MemStorage.userFeedback before) ++ more).
Proof.
  intros before after.
  pose proof (fresh_run_in_step cs) as Hb. fold before in Hb.
  pose proof (fresh_run_in_step (cs ++ cs')) as Ha. fold after in Ha.
  assert (E : run (cs ++ cs') MemStorage.constructor no_rows
              = run cs' before (fst (run cs MemStorage.constructor no_rows)))
    by apply run_app.
  assert (Eafter : after = snd (run cs' before
                     (fst (run cs MemStorage.constructor no_rows))))
    by (unfold after, fresh_run; now rewrite E).
  destruct (run_keeps_lookups cs' id _ _ Hb) as [Hu Hpa].
  rewrite <- Eafter in Hu, Hpa.
  split; [exact Hu|]. split; [exact Hpa|].
  pose proof (run_grows cs' before
                (fst (run cs MemStorage.constructor no_rows))) as Hg.
  cbv zeta in Hg. rewrite <- E in Hg.
  destruct Hb as ([_ Bu] & [_ Ba] & [_ Br] & [_ Bf]).
  destruct Ha as ([_ Au] & [_ Aa] & [_ Ar] & [_ Af]).
  rewrite Au, Aa, Ar, Af, Bu, Ba, Br, Bf. exact Hg.
Qed.

(** X4.  In a storage that started fresh, a new feedback row goes to the
    end of the list of the analysis it names and changes the list of no
    other analysis. *)
Theorem feedback_is_appended
    (cs : list CreateCall) (now : Date) (f : InsertUserFeedback.t)
    (analysisId : Z) :
  let this := fresh_run cs in
  let (row, this') := MemStorage.createUserFeedback now f this in
  MemStorage.getFeedbackByAnalysis analysisId this'
  = MemStorage.getFeedbackByAnalysis analysisId this
    ++ (if InsertUserFeedback.analysisId f =? analysisId
        then [row] else []).
Proof.
  intros this. destruct (fresh_run_in_step cs) as (_ & _ & _ & [Hf _]).
  fold this in Hf.
  unfold MemStorage.createUserFeedback, MemStorage.getFeedbackByAnalysis.
  cbv beta iota zeta. cbn [MemStorage.userFeedback].
  destruct (MemStorageSpec.counter_ok_set UserFeedback.id _ _
              {| UserFeedback.id := MemStorage.currentFeedbackId this;
                 UserFeedback.analysisId := InsertUserFeedback.analysisId f;
                 UserFeedback.comment :=
                   nullish_to_null (InsertUserFeedback.comment f);
                 UserFeedback.createdAt := Some now |} Hf eq_refl)
    as [-> _].
  unfold Map_values. rewrite map_app, filter_app. cbn.
  reflexivity.
Qed.

(** *** The list queries *)

(** X5.  [getPlantAnalysesByUser] returns the stored analyses of that user
    and no others: a row is in the answer exactly when it is stored with
    that [userId], and the answer has as many rows as the table has for the
    user. *)
Theorem analyses_of_the_user_only (userId : Z) (this : MemStorage.t) :
  (forall a : PlantAnalysis.t,
      In a (MemStorage.getPlantAnalysesByUser userId this)
      <-> In a (Map_values (MemStorage.plantAnalyses this))
          /\ PlantAnalysis.userId a = userId)
  /\ List.length (MemStorage.getPlantAnalysesByUser userId this)
     = List.length (filter (fun a => PlantAnalysis.userId a =? userId)
                      (Map_values (MemStorage.plantAnalyses this))).
Proof.
  pose proof (Array_sort_perm
                (fun a => getTime_or_0 (PlantAnalysis.createdAt a))
                (filter (fun a => PlantAnalysis.userId a =? userId)
                   (Map_values (MemStorage.plantAnalyses this)))) as P.
  change (Permutation
            (filter (fun a => PlantAnalysis.userId a =? userId)
               (Map_values (MemStorage.plantAnalyses this)))
            (MemStorage.getPlantAnalysesByUser userId this)) in P.
  split.
  - intros a. split.
    + intros Hin. apply (Permutation_in _ (Permutation_sym P)) in Hin.
      apply filter_In in Hin. now rewrite Z.eqb_eq in Hin.
    + intros [Hin Hu]. apply (Permutation_in _ P).
      apply filter_In. now rewrite Z.eqb_eq.
  - symmetry. apply Permutation_length, P.
Qed.



(** X8.  The sort is stable: rows with the same timestamp come out in the
    order they were inserted, in [getDiseaseReports] and in
    [getPlantAnalysesByUser]. *)
Theorem equal_timestamps_keep_insertion_order
    (t : Z) (userId : Z) (this : MemStorage.t) :
  filter (fun r => timestamp (DiseaseReport.createdAt r) =? t)
         (MemStorage.getDiseaseReports this)
  = filter (fun r => timestamp (DiseaseReport.createdAt r) =? t)
           (Map_values (MemStorage.diseaseReports this))
  /\ filter (fun a => timestamp (PlantAnalysis.createdAt a) =? t)
            (MemStorage.getPlantAnalysesByUser userId this)
     = filter (fun a => timestamp (PlantAnalysis.createdAt a) =? t)
              (filter (fun a => PlantAnalysis.userId a =? userId)
                      (Map_values (MemStorage.plantAnalyses this))).
Proof.
  unfold MemStorage.getDiseaseReports, MemStorage.getPlantAnalysesByUser.
  rewrite !newest_first_timestamp. split.
  - apply (Array_sort_same_key
             (fun r => timestamp (DiseaseReport.createdAt r))).
  - apply (Array_sort_same_key
             (fun a => timestamp (PlantAnalysis.createdAt a))).
Qed.

(** X9.  When the stored reports were created at strictly increasing
    times, [getDiseaseReports] is exactly the insertion order reversed. *)
Theorem increasing_times_reverse_order (this : MemStorage.t) :
  StronglySorted
    (fun a b => timestamp (DiseaseReport.createdAt a)
                < timestamp (DiseaseReport.createdAt b))
    (Map_values (MemStorage.diseaseReports this)) ->
  MemStorage.getDiseaseReports this
  = rev (Map_values (MemStorage.diseaseReports this)).
Proof.
  intros H. unfold MemStorage.getDiseaseReports.
  rewrite newest_first_timestamp.
  apply (Array_sort_ascending
           (fun r => timestamp (DiseaseReport.createdAt r))), H.
Qed.

End MemStorageMore.

(* ================================================================= *)
(** ** Further properties of [analyzePlantImage] *)

Module OpenAIMore.
Import JS OpenAI.

Lemma truthy_or_else (a d : jsval) :
  truthy d = true -> truthy (or_else a d) = true.
Proof.
  intros Hd. unfold or_else. destruct (truthy a) eqn:E; assumption.
Qed.

Lemma strict_eq_str_false (v : jsval) (s : string) :
  strict_eq_str v s = false -> v <> JStr s.
Proof.
  intros H ->. simpl in H. now rewrite String.eqb_refl in H.
Qed.

Lemma clamp_finite (q : Q) :
  number_max (Finite 0%Q) (number_min (Finite 1%Q) (Finite q))
  = if Qle_bool 1 q then Finite 1%Q
    else if Qle_bool q 0 then Finite 0%Q else Finite q.
Proof.
  simpl. destruct (Qle_bool 1 q); simpl; [reflexivity|].
  destruct (Qle_bool q 0); reflexivity.
Qed.

Lemma Qle_bool_false (p q : Q) : Qle_bool p q = false <-> (q < p)%Q.
Proof.
  split.
  - intros H. apply Qnot_le_lt. intros Hle.
    apply Qle_bool_iff in Hle. congruence.
  - intros H. destruct (Qle_bool p q) eqn:E; [|reflexivity].
    apply Qle_bool_iff in E. exfalso. exact (Qlt_not_le _ _ H E).
Qed.

Section WrapperMore.
Variable StringToNumber : string -> number.
Variable ArrayToString : list jsval -> string.
Variable JSON_parse : string -> option jsval.

Let analyze := analyzePlantImage StringToNumber ArrayToString JSON_parse.
Let to_result := detection_result StringToNumber ArrayToString.

(** X10.  A numeric [confidence] is clamped: values up to 0 give 0, values
    from 1 on give 1, and a value strictly between is returned as it is. *)
Theorem numeric_confidence_is_clamped (result : jsval) (q : Q) :
  get result "confidence" = JNum (Finite q) ->
  exists r,
    to_result result = Returns r
    /\ ((q <= 0)%Q -> confidence r = Finite 0%Q)
    /\ ((0 < q)%Q /\ (q < 1)%Q -> confidence r = Finite q)
    /\ ((1 <= q)%Q -> confidence r = Finite 1%Q).
Proof.
  intros Hget.
  destruct result as [| | | | | |fs]; try discriminate Hget.
  eexists. split; [reflexivity|].
  cbn [confidence]. unfold Math_max, Math_min.
  cbn [ToNumber]. rewrite Hget. unfold or_else. cbn [truthy number_truthy].
  destruct (Qeq_bool q 0) eqn:E0; cbn [negb ToNumber].
  - apply Qeq_bool_iff in E0. repeat split.
    + intros [Hpos _]. rewrite E0 in Hpos. exfalso.
      exact (Qlt_irrefl _ Hpos).
    + intros H1. rewrite E0 in H1. exfalso.
      apply (Qlt_not_le 0 1); [reflexivity | exact H1].
  - rewrite clamp_finite. repeat split.
    + intros Hle.
      assert (E1 : Qle_bool 1 q = false).
      { apply Qle_bool_false. eapply Qle_lt_trans; [exact Hle|reflexivity]. }
      rewrite E1. apply Qle_bool_iff in Hle. now rewrite Hle.
    + intros [Hpos Hlt].
      apply Qle_bool_false in Hpos, Hlt. now rewrite Hlt, Hpos.
    + intros Hge. apply Qle_bool_iff in Hge. now rewrite Hge.
Qed.

(** X11.  Whatever the parsed response holds, the confidence of a returned
    result is either NaN or a number from 0 to 1. *)
Theorem confidence_is_NaN_or_clamped
    (result : jsval) (r : DiseaseDetectionResult) :
  to_result result = Returns r ->
  confidence r = NaN \/ in_unit_interval (confidence r).
Proof.
  intros H.
  destruct (OpenAISpec.confidence_clamped StringToNumber ArrayToString
              result r H) as [Hin Hnan].
  destruct (ToNumber StringToNumber ArrayToString
              (or_else (get result "confidence") (JNum (Finite 0%Q))))
    eqn:E; [left; now apply Hnan | right; apply Hin; discriminate ..].
Qed.

(** X12.  In a returned result [disease], [description] and [treatment]
    are never empty, null or absent, and [severity] is never the text
    "null" (that text becomes a real null). *)
Theorem result_texts_are_present
    (result : jsval) (r : DiseaseDetectionResult) :
  to_result result = Returns r ->
  truthy (disease r) = true
  /\ truthy (description r) = true
  /\ truthy (treatment r) = true
  /\ severity r <> JStr "null".
Proof.
  intros H.
  assert (E : disease r = or_else (get result "disease") (JStr "Unknown")
              /\ description r
                 = or_else (get result "description")
                           (JStr "No description available")
              /\ treatment r
                 = or_else (get result "treatment")
                     (JStr "No treatment recommendations available")
              /\ severity r
                 = (if strict_eq_str (get result "severity") "null"
                    then JNull else get result "severity")).
  { destruct result; try discriminate H; injection H as <-; repeat split. }
  destruct E as (-> & -> & -> & ->).
  repeat split; try (apply truthy_or_else; reflexivity).
  destruct (strict_eq_str (get result "severity") "null") eqn:Es.
  - discriminate.
  - now apply strict_eq_str_false.
Qed.


End WrapperMore.

End OpenAIMore.

(* ================================================================= *)
(** ** Further properties of the routes, for every storage *)

Module RoutesMore.
Import Routes RouteScenario Coverage.

#[local] Ltac unfold_handlers :=
  unfold app, handle, signin, signup, signout, auth_user, post_analyses,
    get_analyses, get_analysis_by_id, post_disease_reports,
    get_disease_reports, post_feedback, get_stats, with_session, bind,
    query, create, get_session, set_session_userId, session_destroy,
    respond, ret.

#[local] Ltac case_split :=
  repeat (match goal with
          | |- context [match ?x with _ => _ end] =>
              lazymatch x with
              | context [match _ with _ => _ end] => fail
              | _ => destruct x eqn:?
              end
          end; cbn).

Section Generic.
Context {S : Type} {storage : IStorage S}.
Variable Body : Type.
Variable signinSchema_parse : Body -> option (string * string).
Variable signupSchema_parse : Body -> option (string * InsertUser.t).
Variable insertDiseaseReportSchema_parse :
  Body -> Z -> option InsertDiseaseReport.t.
Variable insertUserFeedbackSchema_parse :
  Body -> Z -> option InsertUserFeedback.t.
Variable parseInt : string -> IntOrNaN.

Let run := app Body signinSchema_parse signupSchema_parse
               insertDiseaseReportSchema_parse
               insertUserFeedbackSchema_parse parseInt.

(** X14.  A body that the schema of its route rejects is answered with 400
    "Invalid request" and has no effect: storage, session and call log
    stay as they were.  (The two guarded routes parse only after the
    session check.) *)
Theorem rejected_bodies_change_nothing
    (env : Env) (body : Body) (w : World) :
  (signinSchema_parse body = None ->
   run env (PostSignin body) w = (invalid_request, w))
  /\ (signupSchema_parse body = None ->
      run env (PostSignup body) w = (invalid_request, w))
  /\ (forall uid,
        truthy_userId (session w) = Some uid ->
        insertDiseaseReportSchema_parse body uid = None ->
        run env (PostDiseaseReports body) w = (invalid_request, w))
  /\ (forall uid,
        truthy_userId (session w) = Some uid ->
        insertUserFeedbackSchema_parse body uid = None ->
        run env (PostFeedback body) w = (invalid_request, w)).
Proof.
  unfold run, app, handle. repeat split.
  - intros H. unfold signin. now rewrite H.
  - intros H. unfold signup. now rewrite H.
  - intros uid Hs H. unfold post_disease_reports.
    rewrite (RoutesSpec.with_session_admits _ _ _ Hs). now rewrite H.
  - intros uid Hs H. unfold post_feedback.
    rewrite (RoutesSpec.with_session_admits _ _ _ Hs). now rewrite H.
Qed.

(** X15.  Only signup, the upload, and the posting of reports and feedback
    write: every other route leaves the storage exactly as it was. *)
Theorem reading_routes_keep_the_store
    (env : Env) (req : Request Body) (w : World) :
  creating req = false ->
  store (snd (run env req w)) = store w.
Proof.
  intros Hc. destruct req; try discriminate Hc;
    unfold run; unfold_handlers; cbn; case_split; reflexivity.
Qed.

(** X16.  The call log only grows, and by at most one storage call per
    request; signup is the exception with its lookup followed by the
    create, and signout makes none. *)
Theorem storage_calls_per_request
    (env : Env) (req : Request Body) (w : World) :
  exists added : list StorageCall,
    calls (snd (run env req w)) = calls w ++ added
    /\ (List.length added <= max_calls req)%nat.
Proof.
  destruct req; unfold run; unfold_handlers; cbn; case_split;
    first [ exists []; split; [now rewrite app_nil_r | cbn; lia]
          | eexists [_]; split; [reflexivity | cbn; lia]
          | eexists [_; _]; split;
            [now rewrite <- app_assoc | cbn; lia] ].
Qed.



(** X19.  Signin succeeds exactly when the body parses and
    [getUserByUsername] returns a user whose password equals the one
    given; it then stores that user's id in the session.  A signin that
    does not succeed leaves the session alone, and signin never writes to
    the storage. *)
Theorem signin_checks_the_password
    (env : Env) (body : Body) (w : World) :
  let res := fst (run env (PostSignin body) w) in
  let w' := snd (run env (PostSignin body) w) in
  store w' = store w
  /\ (status res = 200
      <-> exists username password user,
          signinSchema_parse body = Some (username, password)
          /\ getUserByUsername username (store w) = Some user
          /\ User.password user = password)
  /\ (forall username password user,
        signinSchema_parse body = Some (username, password) ->
        getUserByUsername username (store w) = Some user ->
        User.password user = password ->
        res = {| status := 200;
                 json := WrappedUser (without_password user) |}
        /\ session w' = {| userId := Some (User.id user) |})
  /\ (status res <> 200 -> session w' = session w).
Proof.
  cbv zeta. unfold run, app, handle, signin.
  destruct (signinSchema_parse body) as [[username password]|] eqn:Hp.
  - unfold bind, query, set_session_userId, respond, ret. cbn.
    destruct (getUserByUsername username (store w)) as [user|] eqn:Hu; cbn.
    + destruct (String.eqb (User.password user) password) eqn:Hpw; cbn.
      * apply String.eqb_eq in Hpw.
        split; [reflexivity|]. split; [|split].
        -- split; [|reflexivity]. intros _.
           exists username, password, user. auto.
        -- intros u p usr H1 H2 H3. injection H1 as <- <-.
           rewrite Hu in H2. injection H2 as <-. auto.
        -- intros H. now contradiction H.
      * apply String.eqb_neq in Hpw.
        split; [reflexivity|]. split; [|split].
        -- split; [discriminate|].
           intros (u & p & usr & H1 & H2 & H3). injection H1 as <- <-.
           rewrite Hu in H2. injection H2 as <-. contradiction.
        -- intros u p usr H1 H2 H3. injection H1 as <- <-.
           rewrite Hu in H2. injection H2 as <-. contradiction.
        -- reflexivity.
    + split; [reflexivity|]. split; [|split].
      * split; [discriminate|].
        intros (u & p & usr & H1 & H2 & H3). injection H1 as <- <-.
        rewrite Hu in H2. discriminate.
      * intros u p usr H1 H2 H3. injection H1 as <- <-.
        rewrite Hu in H2. discriminate.
      * reflexivity.
  - cbn. split; [reflexivity|]. split; [|split].
    + split; [discriminate|].
      intros (u & p & usr & H1 & _). discriminate.
    + intros u p usr H1. discriminate.
    + reflexivity.
Qed.

(** X20.  For a signed-in user the statistics add up: the total is the
    number of analyses [getPlantAnalysesByUser] returns for that user, it
    is the sum of the healthy and the diseased count, neither count is
    negative, and [daysActive] is the constant 15. *)
Theorem stats_add_up (env : Env) (w : World) (uid : Z) :
  truthy_userId (session w) = Some uid ->
  exists total healthy diseased : Z,
    fst (run env GetStats w)
      = {| status := 200; json := JsonStats total healthy diseased 15 |}
    /\ total = Z.of_nat (List.length (getPlantAnalysesByUser uid (store w)))
    /\ total = healthy + diseased
    /\ 0 <= healthy /\ 0 <= diseased.
Proof.
  intros Hs. unfold run, app, handle, get_stats.
  rewrite (RoutesSpec.with_session_admits _ _ _ Hs).
  unfold bind, query, respond, ret. cbn.
  do 3 eexists. split; [reflexivity|].
  split; [reflexivity|]. split; [lia|]. split; [lia|].
  pose proof (filter_length_le
                (fun a => JS.truthy (PlantAnalysis.isHealthy a))
                (getPlantAnalysesByUser uid (store w))).
  lia.
Qed.

(** X21.  The upload route of a signed-in user: without a file it answers
    400, and when the image analysis fails it answers 500, in both cases
    without a storage call; when the analysis returns, it creates one row
    from the session's user id, the file name under [/uploads/] and the
    fields of the result, and answers with that row. *)
Theorem upload_stores_the_analysis
    (env : Env) (file : option File) (w : World) (uid : Z) :
  truthy_userId (session w) = Some uid ->
  match file, aiResult env with
  | None, _ =>
      run env (PostAnalyses file) w
      = ({| status := 400; json := Message "No image file provided" |}, w)
  | Some _, OpenAI.Throws =>
      run env (PostAnalyses file) w
      = ({| status := 500; json := AnalysisFailed |}, w)
  | Some f, OpenAI.Returns r =>
      let (row, st') :=
        createPlantAnalysis (now env) (upload_row uid f r) (store w) in
      run env (PostAnalyses file) w
      = ({| status := 200; json := JsonAnalysis row |},
         mkWorld st' (session w)
                 (calls w ++ [CallCreatePlantAnalysis (upload_row uid f r)]))
  end.
Proof.
  intros Hs. unfold run, app, handle, post_analyses.
  rewrite (RoutesSpec.with_session_admits _ _ _ Hs).
  destruct file as [f|]; [|reflexivity].
  destruct (aiResult env) as [r|]; [|reflexivity].
  unfold bind, create, respond, ret, upload_row. cbn.
  destruct (createPlantAnalysis _ _ (store w)) as [row st']. reflexivity.
Qed.

End Generic.

End RoutesMore.

(* ================================================================= *)
(** ** Further properties of the routes over [MemStorage] *)

Module MemRoutesMore.
Import JS JSFacts Routes RouteScenario Coverage.

(** The first row a predicate accepts, after a [set] of an accepted row
    into a table where no row was accepted, is the new row. *)
Lemma find_after_set {V} (p : V -> bool) (k : Z) (v : V) (m : Map V) :
  find p (Map_values m) = None -> p v = true ->
  find p (Map_values (Map_set k v m)) = Some v.
Proof.
  intros Hnone Hv. induction m as [|[k' v'] m IH]; simpl in *.
  - now rewrite Hv.
  - destruct (p v') eqn:Ev'; [discriminate|].
    destruct (k =? k'); simpl; [now rewrite Hv|].
    rewrite Ev'. now apply IH.
Qed.

(** The user just created is the one a lookup by that name returns. *)
Lemma getUserByUsername_after_createUser (now : Date) (u : InsertUser.t)
    (this : MemStorage.t) :
  MemStorage.getUserByUsername (InsertUser.username u) this = None ->
  MemStorage.getUserByUsername (InsertUser.username u)
    (snd (MemStorage.createUser now u this))
  = Some (fst (MemStorage.createUser now u this)).
Proof.
  intros Hfree. unfold MemStorage.getUserByUsername, MemStorage.createUser.
  cbn [fst snd MemStorage.users].
  apply find_after_set; [exact Hfree | cbn; apply String.eqb_refl].
Qed.

(** The analysis just created is the one a lookup by its id returns. *)
Lemma getPlantAnalysisById_after_create (now : Date)
    (a : InsertPlantAnalysis.t) (this : MemStorage.t) :
  MemStorage.getPlantAnalysisById
    (Some (PlantAnalysis.id (fst (MemStorage.createPlantAnalysis now a this))))
    (snd (MemStorage.createPlantAnalysis now a this))
  = Some (fst (MemStorage.createPlantAnalysis now a this)).
Proof.
  unfold MemStorage.getPlantAnalysisById, MemStorage.createPlantAnalysis.
  cbn [fst snd MemStorage.plantAnalyses PlantAnalysis.id].
  apply Map_get_set_same.
Qed.

Section OnMemStorage.
Variable Body : Type.
Variable signinSchema_parse : Body -> option (string * string).
Variable signupSchema_parse : Body -> option (string * InsertUser.t).
Variable insertDiseaseReportSchema_parse :
  Body -> Z -> option InsertDiseaseReport.t.
Variable insertUserFeedbackSchema_parse :
  Body -> Z -> option InsertUserFeedback.t.
Variable parseInt : string -> IntOrNaN.

Let run : Env -> Request Body -> @M MemStorage.t Response :=
  app Body signinSchema_parse signupSchema_parse
      insertDiseaseReportSchema_parse insertUserFeedbackSchema_parse parseInt.

(** What a signup under a free name does. *)
Lemma signup_creates (env : Env) (body : Body) (w : World)
    (confirm : string) (userData : InsertUser.t) :
  signupSchema_parse body = Some (confirm, userData) ->
  MemStorage.getUserByUsername (InsertUser.username userData) (store w)
    = None ->
  run env (PostSignup body) w
  = ({| status := 200;
        json := WrappedUser
                  (without_password
                     (fst (MemStorage.createUser (now env) userData
                             (store w)))) |},
     mkWorld (snd (MemStorage.createUser (now env) userData (store w)))
       {| userId :=
            Some (User.id (fst (MemStorage.createUser (now env) userData
                                  (store w)))) |}
       ((calls w
         ++ [CallGetUserByUsername (InsertUser.username userData)])
        ++ [CallCreateUser userData])).
Proof.
  intros Hp Hfree. unfold run, app, handle, signup. rewrite Hp.
  unfold bind, query, create, set_session_userId, respond, ret. cbn.
  rewrite Hfree. reflexivity.
Qed.

(** X22.  Signup signs the new user in: after a signup under a free name
    (on a storage whose user counter is positive, as it is from the start)
    [GET /api/auth/user] in that session answers with the very user the
    signup answered with. *)
Theorem signup_signs_in
    (env env' : Env) (body : Body) (w : World)
    (confirm : string) (userData : InsertUser.t) :
  signupSchema_parse body = Some (confirm, userData) ->
  MemStorage.getUserByUsername (InsertUser.username userData) (store w)
    = None ->
  0 < MemStorage.currentUserId (store w) ->
  exists user : PublicUser,
    fst (run env (PostSignup body) w)
      = {| status := 200; json := WrappedUser user |}
    /\ pu_username user = InsertUser.username userData
    /\ fst (run env' GetAuthUser (snd (run env (PostSignup body) w)))
       = {| status := 200; json := JsonUser user |}.
Proof.
  intros Hp Hfree Hpos.
  rewrite (signup_creates env body w confirm userData Hp Hfree).
  eexists. split; [reflexivity|]. split; [reflexivity|].
  unfold run, app, handle, auth_user.
  rewrite (RoutesSpec.with_session_admits _ _
             (MemStorage.currentUserId (store w))).
  - unfold bind, query, respond, ret. cbn.
    unfold MemStorage.getUser. cbn. now rewrite Map_get_set_same.
  - cbn. unfold truthy_userId. cbn.
    destruct (MemStorage.currentUserId (store w) =? 0) eqn:E;
      [apply Z.eqb_eq in E; lia | reflexivity].
Qed.

(** X23.  The password chosen at signup is the one signin asks for: after
    a signup under a free name, a signin with that username succeeds with
    the same password, answering with the same user and storing the user's
    id in the session, and fails with 401 "Invalid credentials" for any
    other password. *)
Theorem signup_then_signin
    (env env' : Env) (body body' : Body) (w : World)
    (confirm password : string) (userData : InsertUser.t)
    (sess : SessionData) (log : list StorageCall) :
  signupSchema_parse body = Some (confirm, userData) ->
  MemStorage.getUserByUsername (InsertUser.username userData) (store w)
    = None ->
  signinSchema_parse body'
    = Some (InsertUser.username userData, password) ->
  let w1 := snd (run env (PostSignup body) w) in
  let answer := run env' (PostSignin body') (mkWorld (store w1) sess log) in
  (password = InsertUser.password userData ->
   fst answer = fst (run env (PostSignup body) w)
   /\ session (snd answer) = session w1)
  /\ (password <> InsertUser.password userData ->
      fst answer = {| status := 401; json := Message "Invalid credentials" |}
      /\ session (snd answer) = sess).
Proof.
  intros Hp Hfree Hin. cbv zeta.
  rewrite (signup_creates env body w confirm userData Hp Hfree).
  pose proof (getUserByUsername_after_createUser (now env) userData
                (store w) Hfree) as Hfound.
  destruct (MemStorage.createUser (now env) userData (store w))
    as [user st1] eqn:Ecreate.
  assert (Epw : User.password user = InsertUser.password userData).
  { unfold MemStorage.createUser in Ecreate. now injection Ecreate as <- _. }
  cbn [fst snd store session] in *.
  assert (Hfound' : getUserByUsername (InsertUser.username userData) st1
                    = Some user) by exact Hfound.
  unfold run, app, handle, signin. rewrite Hin.
  unfold bind, query, set_session_userId, respond, ret.
  cbn [fst snd store session calls]. rewrite Hfound', Epw. split.
  - intros ->. rewrite String.eqb_refl. cbn. split; reflexivity.
  - intros Hne.
    destruct (String.eqb (InsertUser.password userData) password) eqn:E.
    + apply String.eqb_eq in E. congruence.
    + cbn. split; reflexivity.
Qed.

(** What a successful upload does. *)
Lemma upload_creates (env : Env) (f : File)
    (r : OpenAI.DiseaseDetectionResult) (w : World) (uid : Z) :
  truthy_userId (session w) = Some uid ->
  aiResult env = OpenAI.Returns r ->
  run env (PostAnalyses (Some f)) w
  = ({| status := 200;
        json := JsonAnalysis
                  (fst (MemStorage.createPlantAnalysis (now env)
                          (upload_row uid f r) (store w))) |},
     mkWorld (snd (MemStorage.createPlantAnalysis (now env)
                     (upload_row uid f r) (store w)))
             (session w)
             (calls w ++ [CallCreatePlantAnalysis (upload_row uid f r)])).
Proof.
  intros Hs Hai. unfold run, app, handle, post_analyses.
  rewrite (RoutesSpec.with_session_admits _ _ _ Hs), Hai.
  reflexivity.
Qed.

(** X24.  An uploaded analysis can be fetched by its owner and by nobody
    else: after a successful upload, [GET /api/analyses/:id] with the id of
    the new row answers with the row for the uploading user and with 404
    for every other signed-in user. *)
Theorem uploaded_analysis_is_private
    (env env' : Env) (f : File) (r : OpenAI.DiseaseDetectionResult)
    (w : World) (uid : Z) :
  truthy_userId (session w) = Some uid ->
  aiResult env = OpenAI.Returns r ->
  exists row : PlantAnalysis.t,
    fst (run env (PostAnalyses (Some f)) w)
      = {| status := 200; json := JsonAnalysis row |}
    /\ PlantAnalysis.userId row = uid
    /\ forall (id : string) (sess : SessionData) (log : list StorageCall)
              (visitor : Z),
        parseInt id = Some (PlantAnalysis.id row) ->
        truthy_userId sess = Some visitor ->
        fst (run env' (GetAnalysisById id)
               (mkWorld (store (snd (run env (PostAnalyses (Some f)) w)))
                        sess log))
        = if visitor =? uid
          then {| status := 200; json := JsonAnalysis row |}
          else {| status := 404; json := Message "Analysis not found" |}.
Proof.
  intros Hs Hai.
  rewrite (upload_creates env f r w uid Hs Hai).
  pose proof (getPlantAnalysisById_after_create (now env)
                (upload_row uid f r) (store w)) as Hfound.
  destruct (MemStorage.createPlantAnalysis (now env) (upload_row uid f r)
              (store w)) as [row st1] eqn:Ecreate.
  assert (Eu : PlantAnalysis.userId row = uid).
  { unfold MemStorage.createPlantAnalysis in Ecreate.
    now injection Ecreate as <- _. }
  cbn [fst snd store] in *.
  exists row. split; [reflexivity|]. split; [exact Eu|].
  intros id sess log visitor Hid Hv.
  assert (Hfound' : getPlantAnalysisById (Some (PlantAnalysis.id row)) st1
                    = Some row) by exact Hfound.
  unfold run, app, handle, get_analysis_by_id.
  rewrite (RoutesSpec.with_session_admits _ (mkWorld st1 sess log)
             visitor Hv).
  unfold bind, query, respond, ret. cbn [fst snd store].
  rewrite Hid, Hfound', Eu, (Z.eqb_sym uid visitor).
  destruct (visitor =? uid); reflexivity.
Qed.


End OnMemStorage.

End MemRoutesMore.

(* ================================================================= *)
(** ** Further concrete runs *)

Module MoreRuns.
Import JS Routes RouteScenario Coverage.

Lemma increasing_times_reverse_order_witness :
  StronglySorted
    (fun a b => Scenario.timestamp (DiseaseReport.createdAt a)
                < Scenario.timestamp (DiseaseReport.createdAt b))
    (Map_values (MemStorage.diseaseReports three_reports))
  /\ map DiseaseReport.location (MemStorage.getDiseaseReports three_reports)
     = ["Valley"; "Hill"; "Field"].
Proof.
  assert (H : StronglySorted
                (fun a b => Scenario.timestamp (DiseaseReport.createdAt a)
                            < Scenario.timestamp (DiseaseReport.createdAt b))
                (Map_values (MemStorage.diseaseReports three_reports))).
  { repeat constructor. }
  split; [exact H|].
  rewrite (MemStorageMore.increasing_times_reverse_order three_reports H).
  reflexivity.
Defined.

Lemma numeric_confidence_is_clamped_witness :
  get healthy_response "confidence" = JNum (Finite (3 # 2))
  /\ exists r,
      OpenAI.detection_result (fun _ => NaN) (fun _ => "") healthy_response
        = OpenAI.Returns r
      /\ OpenAI.confidence r = Finite 1.
Proof.
  split; [reflexivity|].
  destruct (OpenAIMore.numeric_confidence_is_clamped
              (fun _ => NaN) (fun _ => "") healthy_response (3 # 2) eq_refl)
    as [r (Hr & _ & _ & Hone)].
  exists r. split; [exact Hr|]. apply Hone. unfold Qle. cbn. lia.
Defined.

Lemma confidence_is_NaN_or_clamped_witness :
  OpenAI.detection_result (fun _ => NaN) (fun _ => "") healthy_response
    = OpenAI.Returns healthy_result
  /\ (OpenAI.confidence healthy_result = NaN
      \/ OpenAI.in_unit_interval (OpenAI.confidence healthy_result)).
Proof.
  split; [reflexivity|].
  exact (OpenAIMore.confidence_is_NaN_or_clamped
           (fun _ => NaN) (fun _ => "") healthy_response healthy_result
           eq_refl).
Defined.

Lemma result_texts_are_present_witness :
  OpenAI.detection_result (fun _ => NaN) (fun _ => "") healthy_response
    = OpenAI.Returns healthy_result
  /\ truthy (OpenAI.disease healthy_result) = true
  /\ truthy (OpenAI.description healthy_result) = true
  /\ truthy (OpenAI.treatment healthy_result) = true
  /\ OpenAI.severity healthy_result <> JStr "null".
Proof.
  split; [reflexivity|].
  exact (OpenAIMore.result_texts_are_present
           (fun _ => NaN) (fun _ => "") healthy_response healthy_result
           eq_refl).
Defined.

Lemma reading_routes_keep_the_store_witness :
  creating (@GetAnalyses SampleBody) = false
  /\ store (snd (sample_app (sample_env 0) GetAnalyses
                   (sample_world with_analysis (Some 1))))
     = with_analysis.
Proof.
  split; [reflexivity|].
  exact (RoutesMore.reading_routes_keep_the_store
           SampleBody sample_signin sample_signup sample_report
           sample_feedback sample_parseInt
           (sample_env 0) GetAnalyses (sample_world with_analysis (Some 1))
           eq_refl).
Defined.


Lemma stats_add_up_witness :
  truthy_userId (session (sample_world with_analysis (Some 1))) = Some 1
  /\ exists total healthy diseased : Z,
      fst (sample_app (sample_env 0) GetStats
             (sample_world with_analysis (Some 1)))
        = {| status := 200; json := JsonStats total healthy diseased 15 |}
      /\ total = Z.of_nat (List.length
                             (MemStorage.getPlantAnalysesByUser 1
                                with_analysis))
      /\ total = healthy + diseased
      /\ 0 <= healthy /\ 0 <= diseased.
Proof.
  split; [reflexivity|].
  exact (RoutesMore.stats_add_up
           SampleBody sample_signin sample_signup sample_report
           sample_feedback sample_parseInt
           (sample_env 0) (sample_world with_analysis (Some 1)) 1 eq_refl).
Defined.

Lemma upload_stores_the_analysis_witness :
  truthy_userId (session (sample_world two_users (Some 1))) = Some 1
  /\ sample_app upload_env (PostAnalyses (Some aloe_photo))
       (sample_world two_users (Some 1))
     = ({| status := 200;
           json := JsonAnalysis
                     (fst (MemStorage.createPlantAnalysis 4000
                             (upload_row 1 aloe_photo healthy_result)
                             two_users)) |},
        mkWorld (snd (MemStorage.createPlantAnalysis 4000
                        (upload_row 1 aloe_photo healthy_result) two_users))
                (mkSession (Some 1))
                [CallCreatePlantAnalysis
                   (upload_row 1 aloe_photo healthy_result)]).
Proof.
  split; [reflexivity|].
  exact (RoutesMore.upload_stores_the_analysis
           SampleBody sample_signin sample_signup sample_report
           sample_feedback sample_parseInt
           upload_env (Some aloe_photo) (sample_world two_users (Some 1)) 1
           eq_refl).
Defined.

Lemma signup_signs_in_witness :
  sample_signup (SignupForm "singer" carol) = Some ("singer", carol)
  /\ MemStorage.getUserByUsername "carol" two_users = None
  /\ 0 < MemStorage.currentUserId two_users
  /\ exists user : PublicUser,
      fst (sample_app (sample_env 5000) (PostSignup (SignupForm "singer" carol))
             (sample_world two_users None))
        = {| status := 200; json := WrappedUser user |}
      /\ pu_username user = "carol"
      /\ fst (sample_app (sample_env 6000) GetAuthUser
                (snd (sample_app (sample_env 5000)
                        (PostSignup (SignupForm "singer" carol))
                        (sample_world two_users None))))
         = {| status := 200; json := JsonUser user |}.
Proof.
  split; [reflexivity|]. split; [reflexivity|]. split; [reflexivity|].
  exact (MemRoutesMore.signup_signs_in
           SampleBody sample_signin sample_signup sample_report
           sample_feedback sample_parseInt
           (sample_env 5000) (sample_env 6000) (SignupForm "singer" carol)
           (sample_world two_users None) "singer" carol
           eq_refl eq_refl eq_refl).
Defined.

Lemma signup_then_signin_witness :
  sample_signup (SignupForm "singer" carol) = Some ("singer", carol)
  /\ MemStorage.getUserByUsername "carol" two_users = None
  /\ sample_signin (SigninForm "carol" "singer") = Some ("carol", "singer")
  /\ fst (sample_app (sample_env 6000) (PostSignin (SigninForm "carol" "singer"))
            (mkWorld (store (snd (sample_app (sample_env 5000)
                                    (PostSignup (SignupForm "singer" carol))
                                    (sample_world two_users None))))
                     new_session []))
     = fst (sample_app (sample_env 5000)
              (PostSignup (SignupForm "singer" carol))
              (sample_world two_users None)).
Proof.
  split; [reflexivity|]. split; [reflexivity|]. split; [reflexivity|].
  exact (proj1 (proj1 (MemRoutesMore.signup_then_signin
                  SampleBody sample_signin sample_signup sample_report
                  sample_feedback sample_parseInt
                  (sample_env 5000) (sample_env 6000)
                  (SignupForm "singer" carol) (SigninForm "carol" "singer")
                  (sample_world two_users None) "singer" "singer" carol
                  new_session [] eq_refl eq_refl eq_refl)
                eq_refl)).
Defined.

Lemma uploaded_analysis_is_private_witness :
  truthy_userId (session (sample_world two_users (Some 1))) = Some 1
  /\ aiResult upload_env = OpenAI.Returns healthy_result
  /\ exists row : PlantAnalysis.t,
      fst (sample_app upload_env (PostAnalyses (Some aloe_photo))
             (sample_world two_users (Some 1)))
        = {| status := 200; json := JsonAnalysis row |}
      /\ fst (sample_app (sample_env 5000) (GetAnalysisById "1")
                (mkWorld (store (snd (sample_app upload_env
                                        (PostAnalyses (Some aloe_photo))
                                        (sample_world two_users (Some 1)))))
                         (mkSession (Some 2)) []))
         = {| status := 404; json := Message "Analysis not found" |}.
Proof.
  split; [reflexivity|]. split; [reflexivity|].
  destruct (MemRoutesMore.uploaded_analysis_is_private
              SampleBody sample_signin sample_signup sample_report
              sample_feedback sample_parseInt
              upload_env (sample_env 5000) aloe_photo healthy_result
              (sample_world two_users (Some 1)) 1 eq_refl eq_refl)
    as [row (Hrow & _ & Hfetch)].
  exists row. split; [exact Hrow|].
  assert (Hid : PlantAnalysis.id row = 1).
  { cbv in Hrow. now injection Hrow as <-. }
  refine (Hfetch "1" (mkSession (Some 2)) [] 2 _ eq_refl).
  rewrite Hid. reflexivity.
Defined.


End MoreRuns.
